(** * The educational multi-agent pipeline of [back-end/src/agents]

    A shallow embedding of the Python sources

      - [models/schemas.py]       (the pydantic records and [validate_line_numbers]),
      - [core/code_generator.py]  (stage 1),
      - [core/line_explainer.py]  (stage 2),
      - [core/code_chunker.py]    (stage 3),
      - [core/orchestrator.py]    (the sequencing of the three stages),
      - [server.py]               (the [POST /api/v1/generate] handler),

    followed by the properties the specification states about them.

    The external collaborators (the language model behind [agent.run], the
    system clock, [uuid.uuid4]) are not code of the repository: they are
    gathered in a record [Env] that every stateful definition takes, so that
    each statement holds for every behaviour of the collaborators. *)

From Stdlib Require Import String Ascii List ZArith NArith Bool Lia.
From Stdlib Require Import DecimalString DecimalNat Permutation.
Import ListNotations.

Local Open Scope string_scope.
Local Open Scope Z_scope.

(** ** Python strings

    A Python [str] is modelled by [string]; its characters are the code
    points below 256. *)

Module PyStr.

Definition newline : ascii := "010"%char.

(** [str.isspace] on one character, for the code points below 256:
    TAB, LF, VT, FF, CR, FS, GS, RS, US, SPACE, NEL and NBSP. *)
Definition is_space (c : ascii) : bool :=
  let n := nat_of_ascii c in
  ((9 <=? n) && (n <=? 13))%nat || ((28 <=? n) && (n <=? 32))%nat
  || (n =? 133)%nat || (n =? 160)%nat.

Fixpoint lstrip (s : string) : string :=
  match s with
  | EmptyString => EmptyString
  | String c rest => if is_space c then lstrip rest else s
  end.

Fixpoint rstrip (s : string) : string :=
  match s with
  | EmptyString => EmptyString
  | String c rest =>
      match rstrip rest with
      | EmptyString => if is_space c then EmptyString else String c EmptyString
      | kept => String c kept
      end
  end.

(** [s.strip()] *)
Definition strip (s : string) : string := rstrip (lstrip s).

(** [s.split(sep)] for a one-character separator: the pieces between the
    occurrences of [sep]; never the empty list. *)
Fixpoint split (sep : ascii) (s : string) : list string :=
  match s with
  | EmptyString => [EmptyString]
  | String c rest =>
      if Ascii.eqb c sep then EmptyString :: split sep rest
      else match split sep rest with
           | [] => [String c EmptyString]
           | piece :: pieces => String c piece :: pieces
           end
  end.

(** [s.count(c)] for a one-character [c]. *)
Fixpoint count (c : ascii) (s : string) : nat :=
  match s with
  | EmptyString => 0%nat
  | String d rest => ((if Ascii.eqb d c then 1 else 0) + count c rest)%nat
  end.

(** ["\n".join(parts)] *)
Definition join_lines (parts : list string) : string :=
  String.concat (String newline EmptyString) parts.

(** [str(n)] for a natural number and for an [int]. *)
Definition of_nat (n : nat) : string := NilEmpty.string_of_uint (Nat.to_uint n).
Definition of_int (z : Z) : string := NilEmpty.string_of_int (Z.to_int z).

(** Truthiness of a [str]: [not s] holds exactly for the empty string. *)
Definition truthy (s : string) : bool :=
  match s with EmptyString => false | String _ _ => true end.

(** [s or default] *)
Definition or_default (s : option string) (default : string) : string :=
  match s with
  | Some (String c rest) => String c rest
  | _ => default
  end.

End PyStr.

(** ** [models/schemas.py] *)

Record CodeGenerationRequest := {
  prompt : string;
  language : string;
  context : option string
}.

Record CodeGenerationOutput := {
  gen_date : string;
  gen_language : string;
  gen_code : string
}.

Record CodeLine := {
  line : Z;
  line_code : string;
  line_explanation : option string
}.

Record LineExplanationOutput := {
  lines_date : string;
  lines_language : string;
  lines_code : list CodeLine;
  lines_explanation : string
}.

Record CodeChunk := {
  first_line : Z;
  last_line : Z;
  chunk_line_code : string;
  chunk_line_explanation : option string
}.

Record CodeChunkOutput := {
  chunks_date : string;
  chunks_language : string;
  chunks_code : list CodeChunk;
  chunks_explanation : string
}.

Record OrchestratorResponse := {
  request_id : string;
  generated_code : CodeGenerationOutput;
  line_explanations : LineExplanationOutput;
  chunked_code : CodeChunkOutput;
  processing_time_seconds : Z;   (* a float, by its number of hundredths *)
  status : string
}.

(** [all(chunk.first_line <= chunk.last_line for chunk in chunks)] *)
Definition validate_line_numbers (chunks : list CodeChunk) : bool :=
  forallb (fun chunk => first_line chunk <=? last_line chunk) chunks.

(** ** Durations

    [time.time()] yields a binary float of seconds since the epoch. From
    2004 on (2^30 s after the epoch) every such float is a whole multiple
    of 2^-22 s, and the float subtraction of two of them is exact: the
    result is again a multiple of 2^-22 s, small enough to be a float. A
    clock reading or a duration is modelled by that multiple, a number of
    ticks of 2^-22 s, so that [round] and the [.2f] format below act on
    the exact value of the float, as Python's do. *)

Module Seconds.

Definition ticks_per_second : Z := 4194304.

(** [n / d] rounded to the nearest integer, ties to the even one. *)
Definition round_half_even_div (n d : Z) : Z :=
  let q := n / d in
  let r := n mod d in
  if 2 * r <? d then q
  else if d <? 2 * r then q + 1
  else if Z.even q then q else q + 1.

(** [round(t, 2)]: the float nearest to [h / 100], where [h] is the whole
    number of hundredths nearest to the exact value of [t], an exact tie
    going to the even one. The result is given by [h]. *)
Definition round2 (t : Z) : Z := round_half_even_div (100 * t) ticks_per_second.

Definition two_digits (n : Z) : string :=
  if n <? 10 then "0" ++ PyStr.of_int n else PyStr.of_int n.

(** [f"{t:.2f}"]: the exact value of [t] rounded to hundredths in the same
    way, with the sign of [t]. *)
Definition format_2f (t : Z) : string :=
  let hundredths := round_half_even_div (100 * Z.abs t) ticks_per_second in
  (if t <? 0 then "-" else "")
  ++ PyStr.of_int (hundredths / 100) ++ "." ++ two_digits (hundredths mod 100).

End Seconds.

(** ** Exceptions, the outside world and the monad of the stateful code *)

Inductive Exn :=
| PyException (msg : string)                       (* [Exception(msg)] *)
| HTTPException (status_code : Z) (detail : string).

(** [str(e)] *)
Definition str (e : Exn) : string :=
  match e with
  | PyException msg => msg
  | HTTPException status_code detail => PyStr.of_int status_code ++ ": " ++ detail
  end.

Inductive Result (A : Type) :=
| Ok (a : A)
| Raise (e : Exn).
Arguments Ok {A} a.
Arguments Raise {A} e.

Inductive Agent := code_generator | line_explainer | code_chunker.

(** One invocation of [agent.run] / [agent.arun]. *)
Inductive Call := Run (agent : Agent) (prompt_text : string).

(** What the constructor call [Schema( ** response.content)] does with a
    value that is not yet an instance of the schema: pydantic either builds
    the instance or raises. *)
Inductive Validation (A : Type) :=
| Valid (a : A)
| Invalid (msg : string).
Arguments Valid {A} a.
Arguments Invalid {A} msg.

(** [response.content] *)
Inductive Content (A : Type) :=
| Instance (a : A)                  (* [isinstance(response.content, Schema)] *)
| Other (built : Validation A).
Arguments Instance {A} a.
Arguments Other {A} built.

Inductive RunOutcome (A : Type) :=
| RunRaises (msg : string)          (* the call raises [e] with [str(e) = msg] *)
| RunReturns (content : Content A).
Arguments RunRaises {A} msg.
Arguments RunReturns {A} content.

(** The answer of the model to one call: what comes back, and by how many
    ticks the clock read by [time.time()] has moved when the call is over.
    That is the time the call took, together with any adjustment of the
    system clock made meanwhile; it is negative when the clock was set back
    by more than the call took. *)
Record Reply (A : Type) := {
  latency : Z;
  outcome : RunOutcome A
}.
Arguments latency {A} _.
Arguments outcome {A} _.

(** The collaborators. A model is asked with the instruction text and
    answers possibly differently at each call (the second argument is the
    number of calls made before this one). *)
Record Env := {
  isoformat : Z -> string;                        (* [datetime.isoformat] *)
  uuid4 : nat -> string;                          (* [str(uuid.uuid4())] *)
  run_code_generator : string -> nat -> Reply CodeGenerationOutput;
  run_line_explainer : string -> nat -> Reply LineExplanationOutput;
  run_code_chunker : string -> nat -> Reply CodeChunkOutput
}.

Record World := {
  now : Z;                  (* the clock, in ticks of 2^-22 s *)
  issued : nat;             (* identifiers drawn from [uuid4] so far *)
  calls : list Call         (* the model calls made so far, oldest first *)
}.

Definition M (A : Type) : Type := World -> Result A * World.

Definition ret {A} (a : A) : M A := fun w => (Ok a, w).

Definition raise {A} (e : Exn) : M A := fun w => (Raise e, w).

Definition bind {A B} (c : M A) (k : A -> M B) : M B :=
  fun w =>
    match c w with
    | (Ok a, w') => k a w'
    | (Raise e, w') => (Raise e, w')
    end.

(** [try: body  except Exception as e: handler] *)
Definition try_except {A} (body : M A) (handler : Exn -> M A) : M A :=
  fun w =>
    match body w with
    | (Ok a, w') => (Ok a, w')
    | (Raise e, w') => handler e w'
    end.

Declare Scope py_scope.
Delimit Scope py_scope with py.
Notation "x <- c ;; k" := (bind c (fun x => k))
  (at level 61, c at next level, right associativity) : py_scope.
Local Open Scope py_scope.

(** [time.time()] *)
Definition time_time : M Z := fun w => (Ok (now w), w).

(** The world once a call during which the clock moved by [lat] ticks is
    over. *)
Definition after_call (w : World) (c : Call) (lat : Z) : World :=
  {| now := now w + lat;
     issued := issued w;
     calls := calls w ++ [c] |}.

(** [agent.run(prompt)]: the call is recorded, the clock advances by its
    latency, and the call returns its content or raises. *)
Definition agent_run {A} (agent : Agent) (model : string -> nat -> Reply A)
    (prompt_text : string) : M (Content A) :=
  fun w =>
    let reply := model prompt_text (length (calls w)) in
    let w' := after_call w (Run agent prompt_text) (latency reply) in
    match outcome reply with
    | RunRaises msg => (Raise (PyException msg), w')
    | RunReturns content => (Ok content, w')
    end.

(** [output = response.content if isinstance(response.content, Schema)
             else Schema( ** response.content)] *)
Definition extract {A} (content : Content A) : M A :=
  match content with
  | Instance a => ret a
  | Other (Valid a) => ret a
  | Other (Invalid msg) => raise (PyException msg)
  end.

(** The synchronous and the asynchronous variant of a method differ in the
    prefix of their error message only. *)
Inductive Mode := Sync | Async.

Definition failed (m : Mode) (sync_prefix async_prefix : string) (e : Exn) : Exn :=
  PyException ((match m with Sync => sync_prefix | Async => async_prefix end)
               ++ " failed: " ++ str e).

(** ** The three stages and the orchestrator *)

Section Pipeline.

Variable env : Env.

(** [datetime.now().isoformat()] *)
Definition datetime_now_isoformat : M string :=
  fun w => (Ok (isoformat env (now w)), w).

(** [str(uuid.uuid4())] *)
Definition uuid4_str : M string :=
  fun w => (Ok (uuid4 env (issued w)),
            {| now := now w; issued := S (issued w); calls := calls w |}).

(** *** [core/code_generator.py] *)

(** [CodeGeneratorAgent._build_prompt] *)
Definition generator_build_prompt (request : CodeGenerationRequest) : string :=
  let prompt_parts :=
    [ "Generate " ++ language request ++ " code for the following request:";
      "";
      prompt request ] in
  let prompt_parts :=
    match context request with
    | Some (String c rest) =>
        app prompt_parts [ ""; "Additional context: " ++ String c rest ]
    | _ => prompt_parts
    end in
  let prompt_parts :=
    app prompt_parts
    [ "";
      "Important formatting requirements:";
      "- Use \n for single line breaks";
      "- Use \n\n for blank lines (double line breaks)";
      "- Ensure code is syntactically correct and follows best practices";
      "- Include helpful comments for educational purposes";
      "- Return valid " ++ language request ++ " code only" ] in
  PyStr.join_lines prompt_parts.

(** [CodeGeneratorAgent.generate_code] ([Sync]) and [agenerate_code]
    ([Async]). *)
Definition generate_code_in (m : Mode) (request : CodeGenerationRequest)
    : M CodeGenerationOutput :=
  current_date <- datetime_now_isoformat ;;
  let prompt_text := generator_build_prompt request in
  try_except
    (content <- agent_run code_generator (run_code_generator env) prompt_text ;;
     output <- extract content ;;
     let output :=
       if negb (PyStr.truthy (gen_date output))
       then {| gen_date := current_date;
               gen_language := gen_language output;
               gen_code := gen_code output |}
       else output in
     let output :=
       if negb (String.eqb (gen_language output) (language request))
       then {| gen_date := gen_date output;
               gen_language := language request;
               gen_code := gen_code output |}
       else output in
     ret output)
    (fun e => raise (failed m "Code generation" "Async code generation" e)).

Definition generate_code := generate_code_in Sync.
Definition agenerate_code := generate_code_in Async.

(** *** [core/line_explainer.py] *)

(** [LineExplainerAgent._build_prompt] *)
Definition explainer_build_prompt (code_output : CodeGenerationOutput) : string :=
  let lines := PyStr.split PyStr.newline (gen_code code_output) in
  let prompt_parts :=
    [ "Analyze this " ++ gen_language code_output
        ++ " code and provide line-by-line educational explanations:";
      "";
      "Code to explain:";
      "```" ++ gen_language code_output;
      gen_code code_output;
      "```";
      "";
      "For each line of code:";
      "1. Identify the line number (starting from 1)";
      "2. Extract the exact code from that line";
      "3. Provide an educational explanation (or null for blank/empty lines)";
      "";
      "Important guidelines:";
      "- Blank lines or lines with only whitespace should have line_explanation set to null";
      "- Explain WHY the code does something, not just WHAT it does";
      "- Use beginner-friendly language";
      "- Break down complex concepts into simple terms";
      "- Focus on teaching and helping learners understand";
      "";
      "Also provide an overall explanation of what the entire code does.";
      "";
      "The code has " ++ PyStr.of_nat (length lines) ++ " line(s) total." ] in
  PyStr.join_lines prompt_parts.

(** [LineExplainerAgent.explain_code] and [aexplain_code]. *)
Definition explain_code_in (m : Mode) (code_output : CodeGenerationOutput)
    : M LineExplanationOutput :=
  let prompt_text := explainer_build_prompt code_output in
  try_except
    (content <- agent_run line_explainer (run_line_explainer env) prompt_text ;;
     output <- extract content ;;
     let output := {| lines_date := gen_date code_output;
                      lines_language := lines_language output;
                      lines_code := lines_code output;
                      lines_explanation := lines_explanation output |} in
     let output := {| lines_date := lines_date output;
                      lines_language := gen_language code_output;
                      lines_code := lines_code output;
                      lines_explanation := lines_explanation output |} in
     ret output)
    (fun e => raise (failed m "Line explanation" "Async line explanation" e)).

Definition explain_code := explain_code_in Sync.
Definition aexplain_code := explain_code_in Async.

(** *** [core/code_chunker.py] *)

(** [CodeChunkerAgent._build_prompt] *)
Definition chunker_build_prompt (line_output : LineExplanationOutput) : string :=
  let lines_context :=
    map (fun l =>
           let explanation := PyStr.or_default (line_explanation l) "blank line" in
           "Line " ++ PyStr.of_int (line l) ++ ": " ++ line_code l
             ++ " - " ++ explanation)
        (lines_code line_output) in
  let prompt_parts :=
    app
    [ "Group this " ++ lines_language line_output
        ++ " code into logical, educational chunks:";
      "";
      "Line-by-line breakdown:" ]
    (app lines_context
    [ "";
      "Overall code purpose:";
      lines_explanation line_output;
      "";
      "Grouping guidelines:";
      "- Group all related imports together";
      "- Keep class definitions and their methods together (or separate if large)";
      "- Group related function definitions";
      "- Separate main execution logic";
      "- Group related variable declarations or setup code";
      "- Each chunk should represent a complete concept";
      "";
      "For each chunk, specify:";
      "- first_line: starting line number (1-indexed)";
      "- last_line: ending line number (inclusive)";
      "- line_code: the actual code from first_line to last_line (preserve \n line breaks)";
      "- line_explanation: why these lines are grouped together and what they accomplish";
      "";
      "Ensure chunks don't overlap and cover all lines sequentially." ]) in
  PyStr.join_lines prompt_parts.

(** [CodeChunkerAgent.chunk_code] and [achunk_code]. *)
Definition chunk_code_in (m : Mode) (line_output : LineExplanationOutput)
    : M CodeChunkOutput :=
  let prompt_text := chunker_build_prompt line_output in
  try_except
    (content <- agent_run code_chunker (run_code_chunker env) prompt_text ;;
     output <- extract content ;;
     let output := {| chunks_date := lines_date line_output;
                      chunks_language := lines_language line_output;
                      chunks_code := chunks_code output;
                      chunks_explanation := lines_explanation line_output |} in
     ret output)
    (fun e => raise (failed m "Code chunking" "Async code chunking" e)).

Definition chunk_code := chunk_code_in Sync.
Definition achunk_code := chunk_code_in Async.

(** *** [core/orchestrator.py]

    The [print] calls of the orchestrator write progress lines to the
    standard output and play no part in what is returned or raised; they
    are left out. *)

Definition orchestration_failed (m : Mode) (processing_time : Z) (e : Exn) : Exn :=
  PyException ((match m with
                | Sync => "Orchestration"
                | Async => "Async orchestration"
                end)
               ++ " failed after " ++ Seconds.format_2f processing_time
               ++ "s: " ++ str e).

(** [OrchestratorAgent.process_request] and [aprocess_request]. *)
Definition process_request_in (m : Mode) (request : CodeGenerationRequest)
    : M OrchestratorResponse :=
  start_time <- time_time ;;
  request_id <- uuid4_str ;;
  try_except
    (code_output <- generate_code_in m request ;;
     line_output <- explain_code_in m code_output ;;
     chunk_output <- chunk_code_in m line_output ;;
     end_time <- time_time ;;
     let processing_time := end_time - start_time in
     ret {| request_id := request_id;
            generated_code := code_output;
            line_explanations := line_output;
            chunked_code := chunk_output;
            processing_time_seconds := Seconds.round2 processing_time;
            status := "success" |})
    (fun e =>
       end_time <- time_time ;;
       let processing_time := end_time - start_time in
       raise (orchestration_failed m processing_time e)).

Definition process_request := process_request_in Sync.
Definition aprocess_request := process_request_in Async.

(** The world in which stage 1 starts: the orchestrator has read the
    clock and drawn the request identifier. *)
Definition started (w : World) : World :=
  {| now := now w; issued := S (issued w); calls := calls w |}.

(** Stage [agent] is the one that raises, with exception [e], when the
    three stages run in order from the world [w]; [w'] is the world at
    that point. *)
Inductive stage_raises (m : Mode) (request : CodeGenerationRequest) (w : World)
    : Agent -> Exn -> World -> Prop :=
| raises_generating e w1 :
    generate_code_in m request w = (Raise e, w1) ->
    stage_raises m request w code_generator e w1
| raises_explaining code_output w1 e w2 :
    generate_code_in m request w = (Ok code_output, w1) ->
    explain_code_in m code_output w1 = (Raise e, w2) ->
    stage_raises m request w line_explainer e w2
| raises_chunking code_output w1 line_output w2 e w3 :
    generate_code_in m request w = (Ok code_output, w1) ->
    explain_code_in m code_output w1 = (Ok line_output, w2) ->
    chunk_code_in m line_output w2 = (Raise e, w3) ->
    stage_raises m request w code_chunker e w3.

End Pipeline.

(** The agents of a list of calls, and the stages run up to a given one. *)
Definition agents_of (cs : list Call) : list Agent :=
  map (fun c => match c with Run agent _ => agent end) cs.

Definition stages_through (agent : Agent) : list Agent :=
  match agent with
  | code_generator => [code_generator]
  | line_explainer => [code_generator; line_explainer]
  | code_chunker => [code_generator; line_explainer; code_chunker]
  end.

(** The output a stage takes from the reply of its model, when the reply
    is accepted by the stage's schema. *)
Definition accepted {A} (reply : Reply A) : option A :=
  match outcome reply with
  | RunReturns (Instance a) => Some a
  | RunReturns (Other (Valid a)) => Some a
  | _ => None
  end.

(** ** [server.py]: [POST /api/v1/generate]

    The [log_requests] middleware prints a line and adds the
    [X-Process-Time] header; it changes neither the status nor the body of
    a response and is left out. *)

(** The JSON body of the request; [None] is an absent field. *)
Record RequestBody := {
  body_prompt : option string;
  body_language : option string;
  body_context : option string
}.

Inductive ResponseBody :=
| JsonResponse (response : OrchestratorResponse)
| JsonDetail (detail : string)                (* of an [HTTPException] *)
| JsonValidationError                         (* of a rejected request body *)
| JsonInternalError (detail path timestamp : string).

Record HttpResponse := {
  http_status : Z;
  http_body : ResponseBody
}.

(** The validation of the body against [CodeGenerationRequest]: [prompt]
    is required ([Field(...)]), [language] defaults to ["python"] and
    [context] to [None]. *)
Definition parse_request (body : RequestBody) : option CodeGenerationRequest :=
  match body_prompt body with
  | None => None
  | Some p =>
      Some {| prompt := p;
              language := match body_language body with
                          | Some l => l
                          | None => "python"
                          end;
              context := body_context body |}
  end.

Section Server.

Variable env : Env.

(** [generate_educational_code] *)
Definition generate_educational_code (request : CodeGenerationRequest)
    : M OrchestratorResponse :=
  try_except
    (if negb (PyStr.truthy (prompt request))
        || (String.length (PyStr.strip (prompt request)) =? 0)%nat
     then raise (HTTPException 400 "Prompt cannot be empty")
     else
       response <- aprocess_request env request ;;
       ret response)
    (fun e =>
       match e with
       | HTTPException _ _ => raise e
       | PyException _ =>
           raise (HTTPException 500 ("Code generation failed: " ++ str e))
       end).

(** [global_exception_handler] *)
Definition global_exception_handler (path : string) (exc : Exn) (w : World)
    : HttpResponse :=
  {| http_status := 500;
     http_body := JsonInternalError (str exc) path (isoformat env (now w)) |}.

(** The route: the framework validates the body, calls the handler with
    the parsed request, and turns what the handler returns or raises
    into the response. *)
Definition post_api_v1_generate (body : RequestBody) (w : World)
    : HttpResponse * World :=
  match parse_request body with
  | None => ({| http_status := 422; http_body := JsonValidationError |}, w)
  | Some request =>
      match generate_educational_code request w with
      | (Ok response, w') =>
          ({| http_status := 200; http_body := JsonResponse response |}, w')
      | (Raise (HTTPException status_code detail), w') =>
          ({| http_status := status_code; http_body := JsonDetail detail |}, w')
      | (Raise (PyException msg), w') =>
          (global_exception_handler "/api/v1/generate" (PyException msg) w', w')
      end
  end.

End Server.

(** ** The body of the request as the framework receives it *)

(** One field of the JSON object, as the validation against the schema
    sees it. *)
Inductive JsonField :=
| Absent                   (* the key is not there *)
| Null                     (* [null] *)
| Text (s : string)        (* a JSON string *)
| NotText.                 (* a number, a boolean, an array or an object *)

Inductive RawBody :=
| NotAnObject              (* no JSON, or JSON that is not an object *)
| Object (prompt_field language_field context_field : JsonField).

(** The validation against [CodeGenerationRequest]: [prompt: str] is
    required, [language: str] has a default, [context: Optional[str]]
    accepts [null]; a [str] field accepts a JSON string only. *)
Definition validate_body (raw : RawBody) : option RequestBody :=
  match raw with
  | NotAnObject => None
  | Object (Text p) l c =>
      match l, c with
      | (Null | NotText), _ => None
      | _, NotText => None
      | _, _ =>
          Some {| body_prompt := Some p;
                  body_language := match l with Text s => Some s | _ => None end;
                  body_context := match c with Text s => Some s | _ => None end |}
      end
  | Object _ _ _ => None
  end.

(** The route on the body as received: a body that the schema rejects is
    answered 422 before the handler runs. *)
Definition post_api_v1_generate_raw (env : Env) (raw : RawBody) (w : World)
    : HttpResponse * World :=
  match validate_body raw with
  | None => ({| http_status := 422; http_body := JsonValidationError |}, w)
  | Some body => post_api_v1_generate env body w
  end.

(** ** The agent objects: the [__init__] methods and [get_agent_info] *)

(** The [output_schema] of an agent. *)
Inductive Schema :=
| CodeGenerationOutput_schema
| LineExplanationOutput_schema
| CodeChunkOutput_schema.

(** The arguments of [agno.agent.Agent(...)]; [agent_model] is the
    identifier given to [Claude(id=...)]. *)
Record AgnoAgent := {
  agent_id : string;
  agent_name : string;
  agent_model : string;
  agent_description : string;
  agent_instructions : list string;
  agent_markdown : bool;
  agent_output_schema : Schema
}.

Record CodeGeneratorAgent := {
  generator_model_id : string;
  generator_agent : AgnoAgent
}.

Record LineExplainerAgent := {
  explainer_model_id : string;
  explainer_agent : AgnoAgent
}.

Record CodeChunkerAgent := {
  chunker_model_id : string;
  chunker_agent : AgnoAgent
}.

Record OrchestratorAgent := {
  orchestrator_model_id : string;
  orchestrator_code_generator : CodeGeneratorAgent;
  orchestrator_line_explainer : LineExplainerAgent;
  orchestrator_code_chunker : CodeChunkerAgent
}.

(** The default of the [model_id] argument of the four constructors. *)
Definition default_model_id : string := "claude-sonnet-4-20250514".

(** [CodeGeneratorAgent.__init__] *)
Definition CodeGeneratorAgent_init (model_id : string) : CodeGeneratorAgent :=
  {| generator_model_id := model_id;
     generator_agent :=
       {| agent_id := "code-generator";
          agent_name := "Code Generator";
          agent_model := model_id;
          agent_description :=
            "You are an educational code generator that creates clean, well-structured code without any comments.";
          agent_instructions :=
            [ "Generate clean, well-structured code based on user requests.";
              "IMPORTANT: Do NOT include any comments in the code. Generate only executable code.";
              "Do NOT use comment syntax like #, //, /* */, ---, or similar in any programming language.";
              "The code will be explained separately by another agent, so comments are not needed.";
              "Use \n for line breaks and \n\n for blank lines in the generated code.";
              "Focus on educational clarity through clean code structure and meaningful variable/function names.";
              "Ensure the code is syntactically correct and follows language conventions.";
              "For educational purposes, prioritize readability through clear naming and structure." ];
          agent_markdown := false;
          agent_output_schema := CodeGenerationOutput_schema |} |}.

(** [LineExplainerAgent.__init__] *)
Definition LineExplainerAgent_init (model_id : string) : LineExplainerAgent :=
  {| explainer_model_id := model_id;
     explainer_agent :=
       {| agent_id := "line-explainer";
          agent_name := "Line Explainer";
          agent_model := model_id;
          agent_description :=
            "You are an educational code explainer that provides line-by-line explanations.";
          agent_instructions :=
            [ "Explain each line of code from a teaching perspective.";
              "For blank lines (empty or only whitespace), set line_explanation to null.";
              "Provide clear, beginner-friendly explanations that focus on the 'why' not just the 'what'.";
              "Break down complex concepts into simple terms.";
              "Include an overall explanation of what the entire code does.";
              "Maintain the exact line numbers and code as provided.";
              "Ensure explanations are educational and help learners understand the code." ];
          agent_markdown := false;
          agent_output_schema := LineExplanationOutput_schema |} |}.

(** [CodeChunkerAgent.__init__] *)
Definition CodeChunkerAgent_init (model_id : string) : CodeChunkerAgent :=
  {| chunker_model_id := model_id;
     chunker_agent :=
       {| agent_id := "code-chunker";
          agent_name := "Code Chunker";
          agent_model := model_id;
          agent_description :=
            "You are a code organization specialist that groups related code lines into logical chunks.";
          agent_instructions :=
            [ "Group related lines of code into logical, cohesive chunks.";
              "Common groupings include: imports, class definitions, function definitions, main logic, etc.";
              "Each chunk should represent a complete, coherent concept or section.";
              "Provide clear explanations for why lines are grouped together.";
              "Preserve the overall code explanation from the line explainer.";
              "Ensure first_line and last_line accurately reflect the line range.";
              "Include the actual code content in line_code for each chunk." ];
          agent_markdown := false;
          agent_output_schema := CodeChunkOutput_schema |} |}.

(** [OrchestratorAgent.__init__] *)
Definition OrchestratorAgent_init (model_id : string) : OrchestratorAgent :=
  {| orchestrator_model_id := model_id;
     orchestrator_code_generator := CodeGeneratorAgent_init model_id;
     orchestrator_line_explainer := LineExplainerAgent_init model_id;
     orchestrator_code_chunker := CodeChunkerAgent_init model_id |}.

(** The dictionaries that the informational endpoints return: keys in
    the order of the source, values of the kinds that occur. *)
#[warnings="-register-all"]
Inductive Json :=
| JBool (b : bool)
| JInt (z : Z)
| JStr (s : string)
| JObj (fields : list (string * Json)).

(** [d[key]] as a partial function. *)
Definition jget (key : string) (j : Json) : option Json :=
  match j with
  | JObj fields =>
      match find (fun kv => String.eqb (fst kv) key) fields with
      | Some kv => Some (snd kv)
      | None => None
      end
  | _ => None
  end.

(** [d[k1][k2]...] *)
Fixpoint jpath (keys : list string) (j : Json) : option Json :=
  match keys with
  | [] => Some j
  | key :: rest =>
      match jget key j with
      | Some j' => jpath rest j'
      | None => None
      end
  end.

(** [OrchestratorAgent.get_agent_info] *)
Definition get_agent_info (self : OrchestratorAgent) : Json :=
  JObj
    [ ("orchestrator",
       JObj [ ("model_id", JStr (orchestrator_model_id self));
              ("agents", JInt 3) ]);
      ("agents",
       JObj
         [ ("code_generator",
            JObj [ ("id", JStr "code-generator");
                   ("model", JStr (orchestrator_model_id self));
                   ("purpose", JStr "Generate educational code") ]);
           ("line_explainer",
            JObj [ ("id", JStr "line-explainer");
                   ("model", JStr (orchestrator_model_id self));
                   ("purpose", JStr "Explain code line-by-line") ]);
           ("code_chunker",
            JObj [ ("id", JStr "code-chunker");
                   ("model", JStr (orchestrator_model_id self));
                   ("purpose", JStr "Group code into logical chunks") ]) ]) ].

(** ** [server.py]: start-up and the health endpoints *)

(** [os.getenv], once [load_dotenv()] has run: the value of a variable,
    or [None]. *)
Definition Environ : Type := string -> option string.

(** [bool(os.getenv(name))]: the variable is set and not empty. *)
Definition getenv_bool (environ : Environ) (name : string) : bool :=
  match environ name with
  | Some value => PyStr.truthy value
  | None => false
  end.

(** What importing the module gives: the global [orchestrator], or the
    [EnvironmentError] raised before it is built. *)
Inductive Startup :=
| EnvironmentError (msg : string)
| Started (orchestrator : OrchestratorAgent).

(** The top-level statements of [server.py] up to the construction of the
    orchestrator. *)
Definition startup (environ : Environ) : Startup :=
  if negb (getenv_bool environ "ANTHROPIC_API_KEY")
  then EnvironmentError
         ("ANTHROPIC_API_KEY not found in environment. "
          ++ "Please set it in your .env file or environment variables.")
  else Started (OrchestratorAgent_init default_model_id).

Section Health.

Variable env : Env.
Variable environ : Environ.
Variable orchestrator : OrchestratorAgent.

(** [health_check] *)
Definition health_check (w : World) : Json :=
  JObj
    [ ("status", JStr "healthy");
      ("timestamp", JStr (isoformat env (now w)));
      ("service", JStr "educational-multi-agent-system");
      ("version", JStr "1.0.0");
      ("agents",
       JObj [ ("orchestrator", JStr (orchestrator_model_id orchestrator));
              ("total_agents", JInt 3) ]);
      ("api_key_configured", JBool (getenv_bool environ "ANTHROPIC_API_KEY")) ].

(** [readiness_check]; the global [orchestrator] is an object, so
    [orchestrator is not None] holds. *)
Definition readiness_check (w : World) : Json :=
  let checks :=
    [ ("api_key", getenv_bool environ "ANTHROPIC_API_KEY");
      ("orchestrator", true) ] in
  let is_ready := forallb snd checks in
  JObj
    [ ("ready", JBool is_ready);
      ("timestamp", JStr (isoformat env (now w)));
      ("checks", JObj (map (fun kv => (fst kv, JBool (snd kv))) checks)) ].

(** [get_agent_info], the endpoint. *)
Definition get_agent_info_endpoint : Json := get_agent_info orchestrator.

End Health.

(** ** Vocabulary of the statements *)

(** A line of code that is empty or holds white space only
    ([s.strip() == ""]). *)
Fixpoint blank (s : string) : bool :=
  match s with
  | EmptyString => true
  | String c rest => PyStr.is_space c && blank rest
  end.

(** Blank lines carry no explanation and the other lines carry one. *)
Definition explained_iff_not_blank (l : CodeLine) : Prop :=
  if blank (line_code l)
  then line_explanation l = None
  else line_explanation l <> None.

(** The texts [k] such that [s = k ++ sep ++ u] for some [u]. *)
Fixpoint cuts (sep s : string) : list string :=
  app (if String.prefix sep s then [EmptyString] else [])
      match s with
      | EmptyString => []
      | String c rest => map (String c) (cuts sep rest)
      end.

(** The name under which a stage reports its failure. *)
Definition stage_kind (m : Mode) (agent : Agent) : string :=
  match m, agent with
  | Sync, code_generator => "Code generation"
  | Sync, line_explainer => "Line explanation"
  | Sync, code_chunker => "Code chunking"
  | Async, code_generator => "Async code generation"
  | Async, line_explainer => "Async line explanation"
  | Async, code_chunker => "Async code chunking"
  end.

(** Two chunks that share a line. *)
Definition overlap (a b : CodeChunk) : Prop :=
  first_line a <= last_line b /\ first_line b <= last_line a.

(** The two variants of a method behave alike, up to the text of the
    exception. *)
Definition same_outcome {A} (x y : Result A * World) : Prop :=
  match x, y with
  | (Ok a, w1), (Ok b, w2) => a = b /\ w1 = w2
  | (Raise _, w1), (Raise _, w2) => w1 = w2
  | _, _ => False
  end.

(** The explanation under which a line is shown to the chunking model. *)
Definition shown_explanation (l : CodeLine) : CodeLine :=
  {| line := line l;
     line_code := line_code l;
     line_explanation :=
       Some (PyStr.or_default (line_explanation l) "blank line") |}.

Definition with_shown_explanations (line_output : LineExplanationOutput)
    : LineExplanationOutput :=
  {| lines_date := lines_date line_output;
     lines_language := lines_language line_output;
     lines_code := map shown_explanation (lines_code line_output);
     lines_explanation := lines_explanation line_output |}.

(** ** Concrete collaborators, for the examples *)

Module Examples.

(** Every call of a model moves the clock by [lat] ticks and answers with the
    given outcome, whatever the instruction. *)
Definition scripted (lat : Z)
    (g : RunOutcome CodeGenerationOutput)
    (l : RunOutcome LineExplanationOutput)
    (c : RunOutcome CodeChunkOutput) : Env :=
  {| isoformat := fun t => "T" ++ PyStr.of_int t;
     uuid4 := fun n => "id-" ++ PyStr.of_nat n;
     run_code_generator := fun _ _ => {| latency := lat; outcome := g |};
     run_line_explainer := fun _ _ => {| latency := lat; outcome := l |};
     run_code_chunker := fun _ _ => {| latency := lat; outcome := c |} |}.

Definition w0 : World := {| now := 0; issued := 0; calls := [] |}.

Definition add_request : CodeGenerationRequest :=
  {| prompt := "Create a function to add two numbers";
     language := "python";
     context := None |}.

Definition add_body : RequestBody :=
  {| body_prompt := Some "Create a function to add two numbers";
     body_language := Some "python";
     body_context := None |}.

(** The model of stage 1 gives no date and guesses another language. *)
Definition generated : CodeGenerationOutput :=
  {| gen_date := "";
     gen_language := "javascript";
     gen_code := "def add(a, b):" ++ String PyStr.newline "" ++ "    return a + b" |}.

(** A well-formed answer of the model of stage 2, with dates and
    language that differ from those of stage 1. *)
Definition explained : LineExplanationOutput :=
  {| lines_date := "1999-01-01T00:00:00";
     lines_language := "ruby";
     lines_code :=
       [ {| line := 1; line_code := "def add(a, b):";
            line_explanation := Some "Defines the function" |};
         {| line := 2; line_code := "    return a + b";
            line_explanation := Some "Returns the sum" |} ];
     lines_explanation := "Adds two numbers" |}.

(** An answer of the model of stage 2 that breaks what it was asked for:
    line numbers out of sequence, a blank line with an explanation and a
    line of code without one. *)
Definition explained_badly : LineExplanationOutput :=
  {| lines_date := "1999-01-01T00:00:00";
     lines_language := "ruby";
     lines_code :=
       [ {| line := 7; line_code := "   ";
            line_explanation := Some "A blank line" |};
         {| line := 2; line_code := "    return a + b";
            line_explanation := None |} ];
     lines_explanation := "Adds two numbers" |}.

Definition chunked : CodeChunkOutput :=
  {| chunks_date := "2001-02-03T04:05:06";
     chunks_language := "perl";
     chunks_code :=
       [ {| first_line := 1; last_line := 2;
            chunk_line_code := "def add(a, b):" ++ String PyStr.newline ""
                                 ++ "    return a + b";
            chunk_line_explanation := Some "The whole function" |} ];
     chunks_explanation := "Something else" |}.

(** Chunks out of order, overlapping, leaving line 1 out, the second one
    with its bounds reversed. *)
Definition chunked_badly : CodeChunkOutput :=
  {| chunks_date := "2001-02-03T04:05:06";
     chunks_language := "perl";
     chunks_code :=
       [ {| first_line := 5; last_line := 7;
            chunk_line_code := "x"; chunk_line_explanation := None |};
         {| first_line := 6; last_line := 2;
            chunk_line_code := "y"; chunk_line_explanation := None |} ];
     chunks_explanation := "Something else" |}.

(** Chunks that pass [validate_line_numbers] although they are out of
    order, overlap and leave lines 1 and 2 out. *)
Definition chunks_unordered : list CodeChunk :=
  [ {| first_line := 5; last_line := 7;
       chunk_line_code := "x"; chunk_line_explanation := None |};
    {| first_line := 3; last_line := 6;
       chunk_line_code := "y"; chunk_line_explanation := None |} ].

Definition all_good (lat : Z) : Env :=
  scripted lat (RunReturns (Instance generated))
               (RunReturns (Instance explained))
               (RunReturns (Other (Valid chunked))).

Definition malformed : Env :=
  scripted 1234567 (RunReturns (Instance generated))
                   (RunReturns (Instance explained_badly))
                   (RunReturns (Instance chunked_badly)).

Definition generation_fails (lat : Z) : Env :=
  scripted lat (RunRaises "boom")
               (RunReturns (Instance explained))
               (RunReturns (Instance chunked)).

Definition explanation_fails (lat : Z) : Env :=
  scripted lat (RunReturns (Instance generated))
               (RunRaises "boom")
               (RunReturns (Instance chunked)).

Definition chunking_fails (lat : Z) : Env :=
  scripted lat (RunReturns (Instance generated))
               (RunReturns (Instance explained))
               (RunRaises "boom").

End Examples.

Module MoreExamples.

(** An environment with the credential, one with an empty credential and
    one without. *)
Definition with_key : Environ :=
  fun name => if String.eqb name "ANTHROPIC_API_KEY" then Some "sk-test" else None.

Definition with_empty_key : Environ :=
  fun name => if String.eqb name "ANTHROPIC_API_KEY" then Some "" else None.

Definition without_key : Environ := fun _ => None.

(** A body that leaves the language out. *)
Definition body_without_language : RequestBody :=
  {| body_prompt := Some "  Create a function to add two numbers ";
     body_language := None;
     body_context := Some "" |}.

(** A request whose prompt is blank, as a direct caller of the
    orchestrator may pass it. *)
Definition blank_request : CodeGenerationRequest :=
  {| prompt := "   "; language := "python"; context := None |}.

(** A model of stage 1 that gives a date. *)
Definition generated_dated : CodeGenerationOutput :=
  {| gen_date := "2025-10-31T12:00:00";
     gen_language := "python";
     gen_code := "x = 1" |}.

Definition validation_fails : Env :=
  Examples.scripted 5
    (RunReturns (Instance Examples.generated))
    (RunReturns (Other (Invalid "1 validation error for LineExplanationOutput")))
    (RunReturns (Instance Examples.chunked)).

Definition dated : Env :=
  Examples.scripted 5
    (RunReturns (Instance generated_dated))
    (RunReturns (Instance Examples.explained))
    (RunReturns (Instance Examples.chunked)).

End MoreExamples.

(** * Properties *)

(** ** The monad *)

Lemma bind_Ok {A B} (c : M A) (k : A -> M B) w b w' :
  bind c k w = (Ok b, w') ->
  exists a w1, c w = (Ok a, w1) /\ k a w1 = (Ok b, w').
Proof.
  unfold bind. destruct (c w) as [[a | e] w1]; intros H.
  - exists a, w1. split; [reflexivity | exact H].
  - discriminate H.
Qed.

Lemma bind_Raise {A B} (c : M A) (k : A -> M B) w e w' :
  bind c k w = (Raise e, w') ->
  c w = (Raise e, w') \/
  exists a w1, c w = (Ok a, w1) /\ k a w1 = (Raise e, w').
Proof.
  unfold bind. destruct (c w) as [[a | e0] w1]; intros H.
  - right. exists a, w1. split; [reflexivity | exact H].
  - left. injection H as -> ->. reflexivity.
Qed.

Lemma bind_of_Ok {A B} (c : M A) (k : A -> M B) w a w1 :
  c w = (Ok a, w1) -> bind c k w = k a w1.
Proof. unfold bind. intros ->. reflexivity. Qed.

Lemma bind_of_Raise {A B} (c : M A) (k : A -> M B) w e w1 :
  c w = (Raise e, w1) -> bind c k w = (Raise e, w1).
Proof. unfold bind. intros ->. reflexivity. Qed.

(** ** What one stage does, read off the reply of its model *)

Section Stages.

Variable env : Env.
Variable m : Mode.

(** Stage 1 on an accepted reply. *)
Lemma generate_code_accepted request w model_output :
  let prompt_text := generator_build_prompt request in
  let reply := run_code_generator env prompt_text (length (calls w)) in
  accepted reply = Some model_output ->
  generate_code_in env m request w =
    (Ok {| gen_date := if PyStr.truthy (gen_date model_output)
                       then gen_date model_output
                       else isoformat env (now w);
           gen_language := language request;
           gen_code := gen_code model_output |},
     after_call w (Run code_generator prompt_text) (latency reply)).
Proof.
  intros prompt_text reply Hacc.
  unfold generate_code_in, bind, try_except, datetime_now_isoformat, agent_run.
  fold prompt_text. fold reply.
  unfold accepted in Hacc.
  assert (Hpin : forall o : CodeGenerationOutput,
    (if negb (gen_language o =? language request)%string
     then {| gen_date := gen_date o; gen_language := language request;
             gen_code := gen_code o |}
     else o)
    = {| gen_date := gen_date o; gen_language := language request;
         gen_code := gen_code o |}).
  { intros [d l c]. cbn [gen_date gen_language gen_code].
    destruct (String.eqb_spec l (language request)) as [-> | _]; reflexivity. }
  destruct (outcome reply) as [msg | [a | [a | msg]]]; try discriminate Hacc;
    injection Hacc as ->; cbn [extract ret]; rewrite Hpin;
    destruct model_output as [[| a s] l c]; reflexivity.
Qed.

(** Stage 1 on a reply that is not accepted. *)
Lemma generate_code_rejected request w :
  let prompt_text := generator_build_prompt request in
  let reply := run_code_generator env prompt_text (length (calls w)) in
  accepted reply = None ->
  exists underlying,
    generate_code_in env m request w =
      (Raise (failed m "Code generation" "Async code generation"
                (PyException underlying)),
       after_call w (Run code_generator prompt_text) (latency reply)).
Proof.
  intros prompt_text reply Hacc.
  unfold generate_code_in, bind, try_except, datetime_now_isoformat, agent_run.
  fold prompt_text. fold reply.
  unfold accepted in Hacc.
  destruct (outcome reply) as [msg | [a | [a | msg]]]; try discriminate Hacc;
    exists msg; reflexivity.
Qed.

(** Stage 2 on an accepted reply. *)
Lemma explain_code_accepted code_output w model_output :
  let prompt_text := explainer_build_prompt code_output in
  let reply := run_line_explainer env prompt_text (length (calls w)) in
  accepted reply = Some model_output ->
  explain_code_in env m code_output w =
    (Ok {| lines_date := gen_date code_output;
           lines_language := gen_language code_output;
           lines_code := lines_code model_output;
           lines_explanation := lines_explanation model_output |},
     after_call w (Run line_explainer prompt_text) (latency reply)).
Proof.
  intros prompt_text reply Hacc.
  unfold explain_code_in, bind, try_except, agent_run.
  fold prompt_text. fold reply.
  unfold accepted in Hacc.
  destruct (outcome reply) as [msg | [a | [a | msg]]]; try discriminate Hacc;
    injection Hacc as ->; reflexivity.
Qed.

Lemma explain_code_rejected code_output w :
  let prompt_text := explainer_build_prompt code_output in
  let reply := run_line_explainer env prompt_text (length (calls w)) in
  accepted reply = None ->
  exists underlying,
    explain_code_in env m code_output w =
      (Raise (failed m "Line explanation" "Async line explanation"
                (PyException underlying)),
       after_call w (Run line_explainer prompt_text) (latency reply)).
Proof.
  intros prompt_text reply Hacc.
  unfold explain_code_in, bind, try_except, agent_run.
  fold prompt_text. fold reply.
  unfold accepted in Hacc.
  destruct (outcome reply) as [msg | [a | [a | msg]]]; try discriminate Hacc;
    exists msg; reflexivity.
Qed.

(** Stage 3 on an accepted reply. *)
Lemma chunk_code_accepted line_output w model_output :
  let prompt_text := chunker_build_prompt line_output in
  let reply := run_code_chunker env prompt_text (length (calls w)) in
  accepted reply = Some model_output ->
  chunk_code_in env m line_output w =
    (Ok {| chunks_date := lines_date line_output;
           chunks_language := lines_language line_output;
           chunks_code := chunks_code model_output;
           chunks_explanation := lines_explanation line_output |},
     after_call w (Run code_chunker prompt_text) (latency reply)).
Proof.
  intros prompt_text reply Hacc.
  unfold chunk_code_in, bind, try_except, agent_run.
  fold prompt_text. fold reply.
  unfold accepted in Hacc.
  destruct (outcome reply) as [msg | [a | [a | msg]]]; try discriminate Hacc;
    injection Hacc as ->; reflexivity.
Qed.

Lemma chunk_code_rejected line_output w :
  let prompt_text := chunker_build_prompt line_output in
  let reply := run_code_chunker env prompt_text (length (calls w)) in
  accepted reply = None ->
  exists underlying,
    chunk_code_in env m line_output w =
      (Raise (failed m "Code chunking" "Async code chunking"
                (PyException underlying)),
       after_call w (Run code_chunker prompt_text) (latency reply)).
Proof.
  intros prompt_text reply Hacc.
  unfold chunk_code_in, bind, try_except, agent_run.
  fold prompt_text. fold reply.
  unfold accepted in Hacc.
  destruct (outcome reply) as [msg | [a | [a | msg]]]; try discriminate Hacc;
    exists msg; reflexivity.
Qed.

End Stages.

(** The same three stages, read from their results. *)

Section StageResults.

Variable env : Env.
Variable m : Mode.

Lemma generate_code_Ok request w output w' :
  generate_code_in env m request w = (Ok output, w') ->
  let prompt_text := generator_build_prompt request in
  let reply := run_code_generator env prompt_text (length (calls w)) in
  exists model_output,
    accepted reply = Some model_output /\
    output = {| gen_date := if PyStr.truthy (gen_date model_output)
                            then gen_date model_output
                            else isoformat env (now w);
                gen_language := language request;
                gen_code := gen_code model_output |} /\
    w' = after_call w (Run code_generator prompt_text) (latency reply).
Proof.
  intros H prompt_text reply.
  destruct (accepted reply) as [model_output |] eqn:Hacc.
  - rewrite (generate_code_accepted env m request w model_output Hacc) in H.
    injection H as <- <-. exists model_output. auto.
  - destruct (generate_code_rejected env m request w Hacc) as [u Hu].
    rewrite Hu in H. discriminate H.
Qed.

Lemma generate_code_Raise request w e w' :
  generate_code_in env m request w = (Raise e, w') ->
  let prompt_text := generator_build_prompt request in
  let reply := run_code_generator env prompt_text (length (calls w)) in
  (exists underlying,
     e = failed m "Code generation" "Async code generation"
           (PyException underlying)) /\
  w' = after_call w (Run code_generator prompt_text) (latency reply).
Proof.
  intros H prompt_text reply.
  destruct (accepted reply) as [model_output |] eqn:Hacc.
  - rewrite (generate_code_accepted env m request w model_output Hacc) in H.
    discriminate H.
  - destruct (generate_code_rejected env m request w Hacc) as [u Hu].
    rewrite Hu in H. injection H as <- <-. split; [exists u |]; reflexivity.
Qed.

Lemma explain_code_Ok code_output w output w' :
  explain_code_in env m code_output w = (Ok output, w') ->
  let prompt_text := explainer_build_prompt code_output in
  let reply := run_line_explainer env prompt_text (length (calls w)) in
  exists model_output,
    accepted reply = Some model_output /\
    output = {| lines_date := gen_date code_output;
                lines_language := gen_language code_output;
                lines_code := lines_code model_output;
                lines_explanation := lines_explanation model_output |} /\
    w' = after_call w (Run line_explainer prompt_text) (latency reply).
Proof.
  intros H prompt_text reply.
  destruct (accepted reply) as [model_output |] eqn:Hacc.
  - rewrite (explain_code_accepted env m code_output w model_output Hacc) in H.
    injection H as <- <-. exists model_output. auto.
  - destruct (explain_code_rejected env m code_output w Hacc) as [u Hu].
    rewrite Hu in H. discriminate H.
Qed.

Lemma explain_code_Raise code_output w e w' :
  explain_code_in env m code_output w = (Raise e, w') ->
  let prompt_text := explainer_build_prompt code_output in
  let reply := run_line_explainer env prompt_text (length (calls w)) in
  (exists underlying,
     e = failed m "Line explanation" "Async line explanation"
           (PyException underlying)) /\
  w' = after_call w (Run line_explainer prompt_text) (latency reply).
Proof.
  intros H prompt_text reply.
  destruct (accepted reply) as [model_output |] eqn:Hacc.
  - rewrite (explain_code_accepted env m code_output w model_output Hacc) in H.
    discriminate H.
  - destruct (explain_code_rejected env m code_output w Hacc) as [u Hu].
    rewrite Hu in H. injection H as <- <-. split; [exists u |]; reflexivity.
Qed.

Lemma chunk_code_Ok line_output w output w' :
  chunk_code_in env m line_output w = (Ok output, w') ->
  let prompt_text := chunker_build_prompt line_output in
  let reply := run_code_chunker env prompt_text (length (calls w)) in
  exists model_output,
    accepted reply = Some model_output /\
    output = {| chunks_date := lines_date line_output;
                chunks_language := lines_language line_output;
                chunks_code := chunks_code model_output;
                chunks_explanation := lines_explanation line_output |} /\
    w' = after_call w (Run code_chunker prompt_text) (latency reply).
Proof.
  intros H prompt_text reply.
  destruct (accepted reply) as [model_output |] eqn:Hacc.
  - rewrite (chunk_code_accepted env m line_output w model_output Hacc) in H.
    injection H as <- <-. exists model_output. auto.
  - destruct (chunk_code_rejected env m line_output w Hacc) as [u Hu].
    rewrite Hu in H. discriminate H.
Qed.

Lemma chunk_code_Raise line_output w e w' :
  chunk_code_in env m line_output w = (Raise e, w') ->
  let prompt_text := chunker_build_prompt line_output in
  let reply := run_code_chunker env prompt_text (length (calls w)) in
  (exists underlying,
     e = failed m "Code chunking" "Async code chunking"
           (PyException underlying)) /\
  w' = after_call w (Run code_chunker prompt_text) (latency reply).
Proof.
  intros H prompt_text reply.
  destruct (accepted reply) as [model_output |] eqn:Hacc.
  - rewrite (chunk_code_accepted env m line_output w model_output Hacc) in H.
    discriminate H.
  - destruct (chunk_code_rejected env m line_output w Hacc) as [u Hu].
    rewrite Hu in H. injection H as <- <-. split; [exists u |]; reflexivity.
Qed.

(** The orchestrator as a case analysis on the three stages. *)
Lemma process_request_cases request w :
  process_request_in env m request w =
    match generate_code_in env m request (started w) with
    | (Raise e, w1) => (Raise (orchestration_failed m (now w1 - now w) e), w1)
    | (Ok code_output, w1) =>
        match explain_code_in env m code_output w1 with
        | (Raise e, w2) =>
            (Raise (orchestration_failed m (now w2 - now w) e), w2)
        | (Ok line_output, w2) =>
            match chunk_code_in env m line_output w2 with
            | (Raise e, w3) =>
                (Raise (orchestration_failed m (now w3 - now w) e), w3)
            | (Ok chunk_output, w3) =>
                (Ok {| request_id := uuid4 env (issued w);
                       generated_code := code_output;
                       line_explanations := line_output;
                       chunked_code := chunk_output;
                       processing_time_seconds :=
                         Seconds.round2 (now w3 - now w);
                       status := "success" |}, w3)
            end
        end
    end.
Proof.
  unfold process_request_in, bind, try_except, time_time, uuid4_str, ret, raise.
  fold (started w).
  destruct (generate_code_in env m request (started w)) as [[co | e] w1];
    [| reflexivity].
  destruct (explain_code_in env m co w1) as [[lo | e] w2]; [| reflexivity].
  destruct (chunk_code_in env m lo w2) as [[ch | e] w3]; reflexivity.
Qed.

End StageResults.

(** ** Durations and the clock *)




Lemma after_call_now w c lat : now (after_call w c lat) = now w + lat.
Proof. reflexivity. Qed.

Lemma after_call_calls w c lat : calls (after_call w c lat) = (calls w ++ [c])%list.
Proof. reflexivity. Qed.

(** ** The orchestrator *)

(** The calls of a world reached from [started w] by some model calls, as
    the calls of [w] followed by the new ones. *)
Ltac calls_since_start :=
  rewrite !after_call_calls;
  match goal with
  | |- context [calls (started ?w)] =>
      change (calls (started w)) with (calls w)
  end;
  rewrite <- ?app_assoc; reflexivity.

(** C1. In every successful run of the pipeline (synchronous or
    asynchronous), whatever the models return: the language of the three
    stage outputs is the language of the request; the date of the
    explanation output and of the chunk output is the date of the
    generation output; and the overall explanation of the chunk output is
    the one of the explanation output. *)
Theorem pinned_metadata_propagates env m request w response w' :
  process_request_in env m request w = (Ok response, w') ->
  gen_language (generated_code response) = language request /\
  lines_language (line_explanations response) = language request /\
  chunks_language (chunked_code response) = language request /\
  lines_date (line_explanations response) = gen_date (generated_code response) /\
  chunks_date (chunked_code response) = gen_date (generated_code response) /\
  chunks_explanation (chunked_code response)
    = lines_explanation (line_explanations response).
Proof.
  rewrite process_request_cases.
  destruct (generate_code_in env m request (started w)) as [[co | e] w1] eqn:Hg;
    [| discriminate].
  destruct (explain_code_in env m co w1) as [[lo | e] w2] eqn:He; [| discriminate].
  destruct (chunk_code_in env m lo w2) as [[ch | e] w3] eqn:Hc; [| discriminate].
  intros H. injection H as <- _.
  apply generate_code_Ok in Hg. destruct Hg as (g & _ & -> & _).
  apply explain_code_Ok in He. destruct He as (l & _ & -> & _).
  apply chunk_code_Ok in Hc. destruct Hc as (c & _ & -> & _).
  cbn. repeat split; reflexivity.
Qed.

Lemma pinned_metadata_propagates_witness :
  exists response w',
    process_request_in (Examples.all_good 5) Async Examples.add_request Examples.w0
      = (Ok response, w') /\
    gen_language (generated_code response) = "python" /\
    lines_language (line_explanations response) = "python" /\
    chunks_language (chunked_code response) = "python" /\
    lines_date (line_explanations response) = gen_date (generated_code response) /\
    chunks_date (chunked_code response) = gen_date (generated_code response) /\
    chunks_explanation (chunked_code response)
      = lines_explanation (line_explanations response).
Proof.
  eexists. eexists. split.
  - vm_compute. reflexivity.
  - eapply (pinned_metadata_propagates (Examples.all_good 5) Async
              Examples.add_request Examples.w0).
    vm_compute. reflexivity.
Defined.

(** C2. When one of the three stage calls raises, the orchestrator
    (synchronous or asynchronous) raises one exception and returns nothing;
    the message of that exception holds the time elapsed from the start of
    the run to the failure, formatted with two decimals, and the error text
    of the failing stage; and the models called during the run are those of
    the stages up to the failing one, each called once: no later stage is
    run and none is run again. *)
Theorem orchestrator_stops_at_first_failure env m request w agent e w' :
  stage_raises env m request (started w) agent e w' ->
  process_request_in env m request w =
    (Raise (PyException
              ((match m with
                | Sync => "Orchestration"
                | Async => "Async orchestration"
                end)
               ++ " failed after " ++ Seconds.format_2f (now w' - now w)
               ++ "s: " ++ str e)),
     w') /\
  exists new_calls,
    calls w' = (calls w ++ new_calls)%list /\
    agents_of new_calls = stages_through agent.
Proof.
  intros H. rewrite process_request_cases.
  destruct H as [e w1 Hg | co w1 e w2 Hg He | co w1 lo w2 e w3 Hg He Hc].
  - rewrite Hg. split; [reflexivity |].
    apply generate_code_Raise in Hg. destruct Hg as [_ ->].
    eexists. split; [calls_since_start | reflexivity].
  - rewrite Hg, He. split; [reflexivity |].
    apply generate_code_Ok in Hg. destruct Hg as (g & _ & _ & ->).
    apply explain_code_Raise in He. destruct He as [_ ->].
    eexists. split; [calls_since_start | reflexivity].
  - rewrite Hg, He, Hc. split; [reflexivity |].
    apply generate_code_Ok in Hg. destruct Hg as (g & _ & _ & ->).
    apply explain_code_Ok in He. destruct He as (l & _ & _ & ->).
    apply chunk_code_Raise in Hc. destruct Hc as [_ ->].
    eexists. split; [calls_since_start | reflexivity].
Qed.

Lemma orchestrator_stops_at_first_failure_witness :
  stage_raises (Examples.explanation_fails 1234567) Sync Examples.add_request
    (started Examples.w0) line_explainer
    (PyException "Line explanation failed: boom")
    (snd (process_request_in (Examples.explanation_fails 1234567) Sync
            Examples.add_request Examples.w0)) /\
  fst (process_request_in (Examples.explanation_fails 1234567) Sync
         Examples.add_request Examples.w0)
    = Raise (PyException
        "Orchestration failed after 0.59s: Line explanation failed: boom").
Proof.
  assert (H : stage_raises (Examples.explanation_fails 1234567) Sync
                Examples.add_request (started Examples.w0) line_explainer
                (PyException "Line explanation failed: boom")
                (snd (process_request_in (Examples.explanation_fails 1234567)
                        Sync Examples.add_request Examples.w0)))
    by (eapply raises_explaining; vm_compute; reflexivity).
  split; [exact H |].
  destruct (orchestrator_stops_at_first_failure _ _ _ _ _ _ _ H) as [Heq _].
  rewrite Heq. vm_compute. reflexivity.
Defined.




(** ** The stages *)

(** C5. For every request and every reply of the model that stage 1
    accepts, [generate_code] and [agenerate_code] return an output whose
    language is the language of the request, whatever language the model
    declared, and whose date, when the model gave none, is the time the
    stage read on entry, before calling the model. *)
Theorem generate_code_postprocessing env m request w model_output :
  accepted (run_code_generator env (generator_build_prompt request)
              (length (calls w))) = Some model_output ->
  exists output w',
    generate_code_in env m request w = (Ok output, w') /\
    (PyStr.truthy (gen_date model_output) = false ->
     gen_date output = isoformat env (now w)) /\
    gen_language output = language request.
Proof.
  intros Hacc.
  rewrite (generate_code_accepted env m request w model_output Hacc).
  do 2 eexists. split; [reflexivity |]. cbn [gen_date gen_language].
  split; [| reflexivity]. intros ->. reflexivity.
Qed.

Lemma generate_code_postprocessing_witness :
  accepted (run_code_generator (Examples.all_good 5)
              (generator_build_prompt Examples.add_request)
              (length (calls Examples.w0))) = Some Examples.generated /\
  exists output w',
    generate_code (Examples.all_good 5) Examples.add_request Examples.w0
      = (Ok output, w') /\
    (PyStr.truthy (gen_date Examples.generated) = false ->
     gen_date output = isoformat (Examples.all_good 5) (now Examples.w0)) /\
    gen_language output = language Examples.add_request.
Proof.
  split; [reflexivity |].
  apply (generate_code_postprocessing (Examples.all_good 5) Sync
           Examples.add_request Examples.w0 Examples.generated).
  reflexivity.
Defined.

(** C6. For every reply of the model that the stage accepts, [explain_code]
    (and [aexplain_code]) returns the model's output with the date and the
    language replaced by those of the generation output, and [chunk_code]
    (and [achunk_code]) returns the model's output with the date, the
    language and the overall explanation replaced by those of the
    explanation output; the list of lines, respectively of chunks, is the
    list of the model, unchanged and unchecked. *)
Theorem stages_pass_the_model_lists_through env m :
  (forall code_output w model_output,
     accepted (run_line_explainer env (explainer_build_prompt code_output)
                 (length (calls w))) = Some model_output ->
     exists w',
       explain_code_in env m code_output w =
         (Ok {| lines_date := gen_date code_output;
                lines_language := gen_language code_output;
                lines_code := lines_code model_output;
                lines_explanation := lines_explanation model_output |}, w')) /\
  (forall line_output w model_output,
     accepted (run_code_chunker env (chunker_build_prompt line_output)
                 (length (calls w))) = Some model_output ->
     exists w',
       chunk_code_in env m line_output w =
         (Ok {| chunks_date := lines_date line_output;
                chunks_language := lines_language line_output;
                chunks_code := chunks_code model_output;
                chunks_explanation := lines_explanation line_output |}, w')).
Proof.
  split.
  - intros code_output w model_output Hacc.
    rewrite (explain_code_accepted env m code_output w model_output Hacc).
    eexists. reflexivity.
  - intros line_output w model_output Hacc.
    rewrite (chunk_code_accepted env m line_output w model_output Hacc).
    eexists. reflexivity.
Qed.

Lemma stages_pass_the_model_lists_through_witness :
  (exists w',
     explain_code Examples.malformed Examples.generated Examples.w0 =
       (Ok {| lines_date := gen_date Examples.generated;
              lines_language := gen_language Examples.generated;
              lines_code := lines_code Examples.explained_badly;
              lines_explanation := lines_explanation Examples.explained_badly |},
        w')) /\
  (exists w',
     chunk_code Examples.malformed Examples.explained_badly Examples.w0 =
       (Ok {| chunks_date := lines_date Examples.explained_badly;
              chunks_language := lines_language Examples.explained_badly;
              chunks_code := chunks_code Examples.chunked_badly;
              chunks_explanation := lines_explanation Examples.explained_badly |},
        w')).
Proof.
  split.
  - apply (proj1 (stages_pass_the_model_lists_through Examples.malformed Sync)
             Examples.generated Examples.w0 Examples.explained_badly).
    reflexivity.
  - apply (proj2 (stages_pass_the_model_lists_through Examples.malformed Sync)
             Examples.explained_badly Examples.w0 Examples.chunked_badly).
    reflexivity.
Defined.

(** C8. The code at the failing input: the model of the explanation
    stage returns a blank line with an explanation and a line of code
    without one; the run succeeds and its response holds both, against the
    claim and against the docstring of [LineExplainerAgent] (blank lines
    receive null explanations). *)
Lemma blank_lines_rule_is_not_enforced :
  exists response w',
    process_request Examples.malformed Examples.add_request Examples.w0
      = (Ok response, w') /\
    ~ Forall explained_iff_not_blank (lines_code (line_explanations response)).
Proof.
  eexists. eexists. split.
  - vm_compute. reflexivity.
  - intros H. inversion H as [| l ls Hl _]; subst.
    vm_compute in Hl. discriminate Hl.
Qed.

(** For every run, not only that one: in a successful response the list
    [line_explanations.code] is the list the model of the explanation stage
    returned, as it is; hence blank lines are without an explanation and
    the other lines with one exactly when this holds of what the model
    returned. *)
Theorem line_explanations_are_those_of_the_model env m request w response w' :
  process_request_in env m request w = (Ok response, w') ->
  exists model_output,
    accepted (run_line_explainer env
                (explainer_build_prompt (generated_code response))
                (S (length (calls w)))) = Some model_output /\
    lines_code (line_explanations response) = lines_code model_output /\
    (Forall explained_iff_not_blank (lines_code (line_explanations response))
     <-> Forall explained_iff_not_blank (lines_code model_output)).
Proof.
  rewrite process_request_cases.
  destruct (generate_code_in env m request (started w)) as [[co | e] w1] eqn:Hg;
    [| discriminate].
  destruct (explain_code_in env m co w1) as [[lo | e] w2] eqn:He; [| discriminate].
  destruct (chunk_code_in env m lo w2) as [[ch | e] w3] eqn:Hc; [| discriminate].
  intros H. injection H as <- _. cbn [generated_code line_explanations].
  apply generate_code_Ok in Hg. destruct Hg as (g & _ & _ & Hw1).
  apply explain_code_Ok in He. destruct He as (l & Hacc & -> & _).
  exists l. cbn [lines_code]. split; [| split; [reflexivity | tauto]].
  rewrite Hw1, after_call_calls, last_length in Hacc. exact Hacc.
Qed.

Lemma line_explanations_are_those_of_the_model_witness :
  exists response w',
    process_request Examples.malformed Examples.add_request Examples.w0
      = (Ok response, w') /\
    lines_code (line_explanations response) = lines_code Examples.explained_badly.
Proof.
  eexists. eexists. split.
  - vm_compute. reflexivity.
  - match goal with
    | |- lines_code (line_explanations ?r) = _ =>
        assert (H : process_request_in Examples.malformed Sync
                      Examples.add_request Examples.w0
                    = (Ok r, snd (process_request_in Examples.malformed Sync
                                    Examples.add_request Examples.w0)))
          by (vm_compute; reflexivity)
    end.
    destruct (line_explanations_are_those_of_the_model _ _ _ _ _ _ H)
      as (model_output & Hacc & Hcode & _).
    rewrite Hcode. vm_compute in Hacc. injection Hacc as <-. reflexivity.
Defined.

(** ** [validate_line_numbers] *)

(** C9. [validate_line_numbers] holds exactly of the lists whose chunks all
    have [first_line <= last_line]; it holds of the empty list; it holds of
    chunks that are out of order, overlap and leave lines uncovered. No
    stage and no orchestrator operation applies it: for every reply that
    the chunking stage accepts, [chunk_code] and [achunk_code] return the
    chunks of the model, and [process_request] and [aprocess_request]
    return them in their response, whether or not [validate_line_numbers]
    holds of them; so there are successful runs with chunks of which it
    does not hold. *)
Theorem validate_line_numbers_spec :
  (forall chunks,
     validate_line_numbers chunks = true <->
     Forall (fun chunk => first_line chunk <= last_line chunk) chunks) /\
  validate_line_numbers [] = true /\
  (exists a b,
     validate_line_numbers [a; b] = true /\
     overlap a b /\ first_line b < first_line a /\
     1 < first_line a /\ 1 < first_line b) /\
  (forall env m line_output w model_output,
     accepted (run_code_chunker env (chunker_build_prompt line_output)
                 (length (calls w))) = Some model_output ->
     exists output w',
       chunk_code_in env m line_output w = (Ok output, w') /\
       chunks_code output = chunks_code model_output) /\
  (forall env m request w code_output w1 line_output w2 model_output,
     generate_code_in env m request (started w) = (Ok code_output, w1) ->
     explain_code_in env m code_output w1 = (Ok line_output, w2) ->
     accepted (run_code_chunker env (chunker_build_prompt line_output)
                 (length (calls w2))) = Some model_output ->
     exists response w',
       process_request_in env m request w = (Ok response, w') /\
       chunks_code (chunked_code response) = chunks_code model_output) /\
  (exists env request w response w',
     process_request env request w = (Ok response, w') /\
     validate_line_numbers (chunks_code (chunked_code response)) = false).
Proof.
  split; [| split; [reflexivity | split; [| split; [| split]]]].
  - intros chunks. unfold validate_line_numbers.
    rewrite forallb_forall, Forall_forall.
    split; intros H chunk Hin; specialize (H chunk Hin); lia.
  - exists {| first_line := 5; last_line := 7;
              chunk_line_code := "x"; chunk_line_explanation := None |},
           {| first_line := 3; last_line := 6;
              chunk_line_code := "y"; chunk_line_explanation := None |}.
    split; [reflexivity |]. unfold overlap; cbn. lia.
  - intros env m line_output w model_output Hacc.
    rewrite (chunk_code_accepted env m line_output w model_output Hacc).
    do 2 eexists. split; reflexivity.
  - intros env m request w co w1 lo w2 model_output Hg He Hacc.
    rewrite process_request_cases, Hg, He.
    rewrite (chunk_code_accepted env m lo w2 model_output Hacc).
    do 2 eexists. split; reflexivity.
  - exists Examples.malformed, Examples.add_request, Examples.w0.
    eexists. eexists. split; vm_compute; reflexivity.
Qed.

Lemma validate_line_numbers_spec_witness :
  validate_line_numbers (chunks_code Examples.chunked_badly) = false /\
  accepted (run_code_chunker Examples.malformed
              (chunker_build_prompt Examples.explained_badly)
              (length (calls Examples.w0))) = Some Examples.chunked_badly /\
  exists output w',
    achunk_code Examples.malformed Examples.explained_badly Examples.w0
      = (Ok output, w') /\
    chunks_code output = chunks_code Examples.chunked_badly.
Proof.
  split; [reflexivity | split; [reflexivity |]].
  apply (proj1 (proj2 (proj2 (proj2 validate_line_numbers_spec)))
           Examples.malformed Async Examples.explained_badly Examples.w0
           Examples.chunked_badly).
  reflexivity.
Defined.

(** ** Strings *)

Lemma append_assoc (a b c : string) : (a ++ b) ++ c = a ++ (b ++ c).
Proof. induction a as [| x a IH]; cbn; [reflexivity | now rewrite IH]. Qed.

Lemma split_length sep s : length (PyStr.split sep s) = S (PyStr.count sep s).
Proof.
  induction s as [| c rest IH]; cbn [PyStr.split PyStr.count]; [reflexivity |].
  destruct (Ascii.eqb c sep).
  - cbn [length]. rewrite IH. reflexivity.
  - destruct (PyStr.split sep rest) as [| piece pieces]; [discriminate IH |].
    exact IH.
Qed.

Lemma join_lines_ends_with_last parts :
  parts <> [] ->
  exists head, PyStr.join_lines parts = head ++ List.last parts "".
Proof.
  unfold PyStr.join_lines.
  induction parts as [| a rest IH]; intros Hne; [contradiction |].
  destruct rest as [| b rest'].
  - exists "". reflexivity.
  - destruct (IH ltac:(discriminate)) as [head Hhead].
    exists (a ++ String PyStr.newline "" ++ head).
    change (String.concat (String PyStr.newline "") (a :: b :: rest'))
      with (a ++ String PyStr.newline ""
              ++ String.concat (String PyStr.newline "") (b :: rest')).
    rewrite Hhead.
    change (List.last (a :: b :: rest') "") with (List.last (b :: rest') "").
    rewrite !append_assoc. reflexivity.
Qed.

(** C10. The number of lines that the explanation stage announces at the
    end of its instruction is the length of the code text split at the line
    breaks, that is the number of line breaks of the text plus one; it is
    never 0, and it is 1 for the empty text. *)
Theorem expected_line_count code_output :
  length (PyStr.split PyStr.newline (gen_code code_output))
    = (PyStr.count PyStr.newline (gen_code code_output) + 1)%nat /\
  (exists head,
     explainer_build_prompt code_output =
       head ++ "The code has "
         ++ PyStr.of_nat (PyStr.count PyStr.newline (gen_code code_output) + 1)
         ++ " line(s) total.") /\
  (gen_code code_output = "" ->
   exists head,
     explainer_build_prompt code_output = head ++ "The code has 1 line(s) total.").
Proof.
  assert (Hlen : length (PyStr.split PyStr.newline (gen_code code_output))
                 = (PyStr.count PyStr.newline (gen_code code_output) + 1)%nat)
    by (rewrite split_length; lia).
  assert (Hprompt : exists head,
            explainer_build_prompt code_output =
              head ++ "The code has "
                ++ PyStr.of_nat
                     (PyStr.count PyStr.newline (gen_code code_output) + 1)
                ++ " line(s) total.").
  { unfold explainer_build_prompt. rewrite Hlen.
    match goal with
    | |- exists head, PyStr.join_lines ?parts = _ =>
        destruct (join_lines_ends_with_last parts ltac:(discriminate))
          as [head Hhead]
    end.
    exists head. exact Hhead. }
  split; [exact Hlen | split; [exact Hprompt |]].
  intros Hempty. destruct Hprompt as [head Hhead]. exists head.
  rewrite Hhead, Hempty. reflexivity.
Qed.

Lemma expected_line_count_witness :
  gen_code {| gen_date := "d"; gen_language := "python"; gen_code := "" |} = "" /\
  exists head,
    explainer_build_prompt
      {| gen_date := "d"; gen_language := "python"; gen_code := "" |}
    = head ++ "The code has 1 line(s) total.".
Proof.
  split; [reflexivity |].
  apply (proj2 (proj2 (expected_line_count
           {| gen_date := "d"; gen_language := "python"; gen_code := "" |}))).
  reflexivity.
Defined.

(** ** Blank prompts *)

Lemma lstrip_blank s : blank s = true -> PyStr.lstrip s = "".
Proof.
  induction s as [| c rest IH]; cbn [blank PyStr.lstrip]; [reflexivity |].
  destruct (PyStr.is_space c); [exact IH | discriminate].
Qed.

Lemma lstrip_not_blank s :
  blank s = false ->
  exists c rest, PyStr.lstrip s = String c rest /\ PyStr.is_space c = false.
Proof.
  induction s as [| c rest IH]; cbn [blank PyStr.lstrip]; [discriminate |].
  destruct (PyStr.is_space c) eqn:Hc.
  - exact IH.
  - intros _. exists c, rest. split; [reflexivity | exact Hc].
Qed.

Lemma rstrip_keeps_head c rest :
  PyStr.is_space c = false -> exists kept, PyStr.rstrip (String c rest) = String c kept.
Proof.
  intros Hc. cbn [PyStr.rstrip]. rewrite Hc.
  destruct (PyStr.rstrip rest) as [| d kept].
  - exists "". reflexivity.
  - exists (String d kept). reflexivity.
Qed.

(** The prompt is refused by the handler exactly when it is blank. *)
Lemma prompt_guard p :
  negb (PyStr.truthy p) || (String.length (PyStr.strip p) =? 0)%nat = blank p.
Proof.
  destruct (blank p) eqn:Hb.
  - unfold PyStr.strip. rewrite (lstrip_blank p Hb). cbn.
    apply orb_true_r.
  - destruct (lstrip_not_blank p Hb) as (c & rest & Hl & Hc).
    unfold PyStr.strip. rewrite Hl.
    destruct (rstrip_keeps_head c rest Hc) as [kept ->].
    destruct p; [discriminate Hb | reflexivity].
Qed.

Lemma strip_empty_iff_blank p : PyStr.strip p = "" <-> blank p = true.
Proof.
  split.
  - intros Hs. destruct (blank p) eqn:Hb; [reflexivity |].
    destruct (lstrip_not_blank p Hb) as (c & rest & Hl & Hc).
    unfold PyStr.strip in Hs. rewrite Hl in Hs.
    destruct (rstrip_keeps_head c rest Hc) as [kept Hk].
    rewrite Hk in Hs. discriminate Hs.
  - intros Hb. unfold PyStr.strip. rewrite (lstrip_blank p Hb). reflexivity.
Qed.

(** ** The endpoint *)

(** What the orchestrator raises is a plain [Exception]. *)
Lemma process_request_raises_Exception env m request w e w' :
  process_request_in env m request w = (Raise e, w') ->
  exists msg, e = PyException msg.
Proof.
  rewrite process_request_cases.
  destruct (generate_code_in env m request (started w)) as [[co | e1] w1].
  - destruct (explain_code_in env m co w1) as [[lo | e2] w2].
    + destruct (chunk_code_in env m lo w2) as [[ch | e3] w3]; intros H.
      * discriminate H.
      * injection H as <- _. eexists. reflexivity.
    + intros H. injection H as <- _. eexists. reflexivity.
  - intros H. injection H as <- _. eexists. reflexivity.
Qed.

(** The handler on a prompt that is not blank. *)
Lemma handler_on_orchestrator_failure env request w e w' :
  blank (prompt request) = false ->
  aprocess_request env request w = (Raise e, w') ->
  generate_educational_code env request w =
    (Raise (HTTPException 500 ("Code generation failed: " ++ str e)), w').
Proof.
  intros Hb Hrun.
  destruct (process_request_raises_Exception env Async request w e w' Hrun)
    as [msg ->].
  unfold generate_educational_code, try_except.
  rewrite prompt_guard, Hb. unfold bind. rewrite Hrun. reflexivity.
Qed.

(** The endpoint when the orchestrator fails. *)
Lemma endpoint_on_orchestrator_failure env body request w e w' :
  parse_request body = Some request ->
  PyStr.strip (prompt request) <> "" ->
  aprocess_request env request w = (Raise e, w') ->
  post_api_v1_generate env body w =
    ({| http_status := 500;
        http_body := JsonDetail ("Code generation failed: " ++ str e) |}, w').
Proof.
  intros Hparse Hs Hrun.
  assert (Hb : blank (prompt request) = false).
  { destruct (blank (prompt request)) eqn:Hb; [| reflexivity].
    apply strip_empty_iff_blank in Hb. contradiction. }
  unfold post_api_v1_generate. rewrite Hparse.
  rewrite (handler_on_orchestrator_failure env request w e w' Hb Hrun).
  reflexivity.
Qed.

(** C4. For every call of [POST /api/v1/generate]: when the body holds a
    prompt that is empty or made of white space only, the response is a 400
    and the world is left as it was, so the orchestrator has not run; when
    the body has no prompt, the response is a 422 and the world is left as
    it was, the handler has not run; when the orchestrator fails, the
    response is a 500 whose detail ends with the text of the error. *)
Theorem generate_endpoint_errors env body w :
  (forall p,
     body_prompt body = Some p -> PyStr.strip p = "" ->
     post_api_v1_generate env body w =
       ({| http_status := 400;
           http_body := JsonDetail "Prompt cannot be empty" |}, w)) /\
  (body_prompt body = None ->
   post_api_v1_generate env body w =
     ({| http_status := 422; http_body := JsonValidationError |}, w)) /\
  (forall request e w',
     parse_request body = Some request ->
     PyStr.strip (prompt request) <> "" ->
     aprocess_request env request w = (Raise e, w') ->
     post_api_v1_generate env body w =
       ({| http_status := 500;
           http_body := JsonDetail ("Code generation failed: " ++ str e) |},
        w')).
Proof.
  split; [| split].
  - intros p Hp Hs. apply strip_empty_iff_blank in Hs.
    unfold post_api_v1_generate, parse_request. rewrite Hp.
    unfold generate_educational_code, try_except.
    cbn [prompt]. rewrite prompt_guard, Hs. reflexivity.
  - intros Hp. unfold post_api_v1_generate, parse_request. rewrite Hp.
    reflexivity.
  - intros request e w'. apply endpoint_on_orchestrator_failure.
Qed.

Lemma generate_endpoint_errors_witness :
  (body_prompt {| body_prompt := Some "   "; body_language := None;
                  body_context := None |} = Some "   " /\
   PyStr.strip "   " = "" /\
   post_api_v1_generate (Examples.all_good 5)
     {| body_prompt := Some "   "; body_language := None; body_context := None |}
     Examples.w0 =
     ({| http_status := 400; http_body := JsonDetail "Prompt cannot be empty" |},
      Examples.w0)) /\
  (post_api_v1_generate (Examples.all_good 5)
     {| body_prompt := None; body_language := Some "python";
        body_context := None |} Examples.w0 =
     ({| http_status := 422; http_body := JsonValidationError |}, Examples.w0)) /\
  (fst (post_api_v1_generate (Examples.chunking_fails 1234567) Examples.add_body
          Examples.w0) =
     {| http_status := 500;
        http_body := JsonDetail
          "Code generation failed: Async orchestration failed after 0.88s: Async code chunking failed: boom" |}).
Proof.
  split; [| split].
  - split; [reflexivity | split; [reflexivity |]].
    apply (proj1 (generate_endpoint_errors (Examples.all_good 5)
             {| body_prompt := Some "   "; body_language := None;
                body_context := None |} Examples.w0) "   ");
      reflexivity.
  - apply (proj1 (proj2 (generate_endpoint_errors (Examples.all_good 5)
             {| body_prompt := None; body_language := Some "python";
                body_context := None |} Examples.w0))).
    reflexivity.
  - rewrite (proj2 (proj2 (generate_endpoint_errors (Examples.chunking_fails 1234567)
               Examples.add_body Examples.w0))
               Examples.add_request
               (PyException
                  "Async orchestration failed after 0.88s: Async code chunking failed: boom")
               (snd (aprocess_request (Examples.chunking_fails 1234567)
                       Examples.add_request Examples.w0))).
    + reflexivity.
    + reflexivity.
    + vm_compute. discriminate.
    + vm_compute. reflexivity.
Defined.

(** The error text of the failing stage starts with the name of the stage. *)
Lemma stage_raises_text env m request w agent e w' :
  stage_raises env m request w agent e w' ->
  exists underlying,
    e = PyException (stage_kind m agent ++ " failed: " ++ underlying).
Proof.
  intros H.
  destruct H as [e w1 Hg | co w1 e w2 Hg He | co w1 lo w2 e w3 Hg He Hc].
  - apply generate_code_Raise in Hg. destruct Hg as [[u ->] _].
    exists u. destruct m; reflexivity.
  - apply explain_code_Raise in He. destruct He as [[u ->] _].
    exists u. destruct m; reflexivity.
  - apply chunk_code_Raise in Hc. destruct Hc as [[u ->] _].
    exists u. destruct m; reflexivity.
Qed.

Lemma stage_raises_process_request env m request w agent e w' :
  stage_raises env m request (started w) agent e w' ->
  process_request_in env m request w =
    (Raise (orchestration_failed m (now w' - now w) e), w').
Proof.
  intros H. rewrite process_request_cases.
  destruct H as [e w1 Hg | co w1 e w2 Hg He | co w1 lo w2 e w3 Hg He Hc].
  - rewrite Hg. reflexivity.
  - rewrite Hg, He. reflexivity.
  - rewrite Hg, He, Hc. reflexivity.
Qed.

Lemma prefix_append sep u : String.prefix sep (sep ++ u) = true.
Proof.
  induction sep as [| a sep IH].
  - destruct u; reflexivity.
  - cbn. destruct (ascii_dec a a); [exact IH | congruence].
Qed.

Lemma cuts_complete sep k u : In k (cuts sep (k ++ sep ++ u)).
Proof.
  induction k as [| c k IH].
  - change ("" ++ sep ++ u) with (sep ++ u).
    destruct (sep ++ u) eqn:Hs; cbn [cuts];
      rewrite <- Hs, prefix_append; left; reflexivity.
  - change (String c k ++ sep ++ u) with (String c (k ++ sep ++ u)).
    cbn [cuts]. apply in_or_app. right. apply in_map. exact IH.
Qed.

(** C3, as the specification states it, fails: there is no naming of the
    three stages, a different name for each, such that the detail of the
    500 is [<name of the failing stage> failed: <some text>]. Whichever
    stage fails, the only text before a [ failed: ] that does not change
    with the elapsed time is [Code generation]. *)
Lemma stage_kind_form_counterexample :
  ~ exists kind : Agent -> string,
      (forall a b, kind a = kind b -> a = b) /\
      forall env body request w agent e w',
        parse_request body = Some request ->
        PyStr.strip (prompt request) <> "" ->
        stage_raises env Async request (started w) agent e w' ->
        exists underlying,
          fst (post_api_v1_generate env body w) =
            {| http_status := 500;
               http_body := JsonDetail (kind agent ++ " failed: " ++ underlying) |}.
Proof.
  intros (kind & Hinj & Hform).
  assert (Hkind : forall agent (fails : Z -> Env),
    (forall lat, exists e w',
       stage_raises (fails lat) Async Examples.add_request
         (started Examples.w0) agent e w') ->
    (forall k, In k (cuts " failed: "
                 match http_body (fst (post_api_v1_generate (fails 0)
                                         Examples.add_body Examples.w0)) with
                 | JsonDetail d => d
                 | _ => ""
                 end) ->
               In k (cuts " failed: "
                 match http_body (fst (post_api_v1_generate (fails 1000000)
                                         Examples.add_body Examples.w0)) with
                 | JsonDetail d => d
                 | _ => ""
                 end) ->
               k = "Code generation") ->
    kind agent = "Code generation").
  { intros agent fails Hfails Hcuts.
    destruct (Hfails 0) as (e0 & w0' & H0).
    destruct (Hfails 1000000) as (e1 & w1' & H1).
    destruct (Hform (fails 0) Examples.add_body Examples.add_request
                Examples.w0 agent e0 w0' eq_refl
                ltac:(vm_compute; discriminate) H0) as [u0 Hu0].
    destruct (Hform (fails 1000000) Examples.add_body Examples.add_request
                Examples.w0 agent e1 w1' eq_refl
                ltac:(vm_compute; discriminate) H1) as [u1 Hu1].
    apply Hcuts.
    - rewrite Hu0. cbn [http_body]. apply cuts_complete.
    - rewrite Hu1. cbn [http_body]. apply cuts_complete. }
  assert (He : kind line_explainer = "Code generation").
  { apply (Hkind line_explainer Examples.explanation_fails).
    - intros lat. do 2 eexists. eapply raises_explaining; vm_compute; reflexivity.
    - intros k H0 H1. vm_compute in H0. vm_compute in H1.
      destruct H0 as [<- | [<- | []]]; [reflexivity |].
      destruct H1 as [H1 | [H1 | []]]; discriminate H1. }
  assert (Hc : kind code_chunker = "Code generation").
  { apply (Hkind code_chunker Examples.chunking_fails).
    - intros lat. do 2 eexists. eapply raises_chunking; vm_compute; reflexivity.
    - intros k H0 H1. vm_compute in H0. vm_compute in H1.
      destruct H0 as [<- | [<- | []]]; [reflexivity |].
      destruct H1 as [H1 | [H1 | []]]; discriminate H1. }
  assert (Habs : line_explainer = code_chunker)
    by (apply Hinj; rewrite He, Hc; reflexivity).
  discriminate Habs.
Qed.

(** C3, amended. When one of the three stages raises, the endpoint answers
    with one 500 whose detail is
    [Code generation failed: Async orchestration failed after <elapsed>s:
     <stage> failed: <underlying text>],
    where [<stage>] is [Async code generation], [Async line explanation] or
    [Async code chunking] according to the failing stage: the leading
    [Code generation failed:] is the same for the three stages, and the
    stage is named after the elapsed time. *)
Theorem generate_endpoint_stage_failure env body request w agent e w' :
  parse_request body = Some request ->
  PyStr.strip (prompt request) <> "" ->
  stage_raises env Async request (started w) agent e w' ->
  exists underlying,
    str e = stage_kind Async agent ++ " failed: " ++ underlying /\
    post_api_v1_generate env body w =
      ({| http_status := 500;
          http_body :=
            JsonDetail
              ("Code generation failed: Async orchestration failed after "
               ++ Seconds.format_2f (now w' - now w) ++ "s: "
               ++ stage_kind Async agent ++ " failed: " ++ underlying) |},
       w').
Proof.
  intros Hparse Hs Hstage.
  destruct (stage_raises_text _ _ _ _ _ _ _ Hstage) as [underlying He].
  exists underlying. split; [rewrite He; reflexivity |].
  pose proof (stage_raises_process_request _ _ _ _ _ _ _ Hstage) as Hrun.
  rewrite (endpoint_on_orchestrator_failure env body request w _ w'
             Hparse Hs Hrun), He.
  reflexivity.
Qed.

Lemma generate_endpoint_stage_failure_witness :
  parse_request Examples.add_body = Some Examples.add_request /\
  PyStr.strip (prompt Examples.add_request) <> "" /\
  stage_raises (Examples.explanation_fails 1234567) Async Examples.add_request
    (started Examples.w0) line_explainer
    (PyException "Async line explanation failed: boom")
    (snd (aprocess_request (Examples.explanation_fails 1234567)
            Examples.add_request Examples.w0)) /\
  fst (post_api_v1_generate (Examples.explanation_fails 1234567)
         Examples.add_body Examples.w0) =
    {| http_status := 500;
       http_body := JsonDetail
         "Code generation failed: Async orchestration failed after 0.59s: Async line explanation failed: boom" |}.
Proof.
  assert (Hparse : parse_request Examples.add_body = Some Examples.add_request)
    by reflexivity.
  assert (Hs : PyStr.strip (prompt Examples.add_request) <> "")
    by (vm_compute; discriminate).
  assert (Hstage : stage_raises (Examples.explanation_fails 1234567) Async
                     Examples.add_request (started Examples.w0) line_explainer
                     (PyException "Async line explanation failed: boom")
                     (snd (aprocess_request (Examples.explanation_fails 1234567)
                             Examples.add_request Examples.w0)))
    by (eapply raises_explaining; vm_compute; reflexivity).
  split; [exact Hparse | split; [exact Hs | split; [exact Hstage |]]].
  destruct (generate_endpoint_stage_failure _ _ _ _ _ _ _ Hparse Hs Hstage)
    as (underlying & Hu & Hresp).
  rewrite Hresp. cbn [fst]. cbn in Hu.
  injection Hu as <-. vm_compute. reflexivity.
Defined.

(** * Further properties of the code *)

(** ** The world after a stage *)

Lemma generate_code_world env m request w :
  snd (generate_code_in env m request w) =
    after_call w (Run code_generator (generator_build_prompt request))
      (latency (run_code_generator env (generator_build_prompt request)
                  (length (calls w)))).
Proof.
  destruct (generate_code_in env m request w) as [[o | e] w'] eqn:H; cbn [snd].
  - apply generate_code_Ok in H. destruct H as (g & _ & _ & ->). reflexivity.
  - apply generate_code_Raise in H. destruct H as [_ ->]. reflexivity.
Qed.

Lemma explain_code_world env m code_output w :
  snd (explain_code_in env m code_output w) =
    after_call w (Run line_explainer (explainer_build_prompt code_output))
      (latency (run_line_explainer env (explainer_build_prompt code_output)
                  (length (calls w)))).
Proof.
  destruct (explain_code_in env m code_output w) as [[o | e] w'] eqn:H; cbn [snd].
  - apply explain_code_Ok in H. destruct H as (l & _ & _ & ->). reflexivity.
  - apply explain_code_Raise in H. destruct H as [_ ->]. reflexivity.
Qed.

Lemma chunk_code_world env m line_output w :
  snd (chunk_code_in env m line_output w) =
    after_call w (Run code_chunker (chunker_build_prompt line_output))
      (latency (run_code_chunker env (chunker_build_prompt line_output)
                  (length (calls w)))).
Proof.
  destruct (chunk_code_in env m line_output w) as [[o | e] w'] eqn:H; cbn [snd].
  - apply chunk_code_Ok in H. destruct H as (c & _ & _ & ->). reflexivity.
  - apply chunk_code_Raise in H. destruct H as [_ ->]. reflexivity.
Qed.

Lemma after_call_issued w c lat : issued (after_call w c lat) = issued w.
Proof. reflexivity. Qed.

(** The world in which the orchestrator stops, whatever the outcome. *)
Lemma process_request_world env m request w :
  exists later,
    calls (snd (process_request_in env m request w)) =
      (calls w ++ Run code_generator (generator_build_prompt request) :: later)%list /\
    issued (snd (process_request_in env m request w)) = S (issued w).
Proof.
  rewrite process_request_cases.
  pose proof (generate_code_world env m request (started w)) as Hg.
  destruct (generate_code_in env m request (started w)) as [[co | e1] w1];
    cbn [snd] in Hg.
  - pose proof (explain_code_world env m co w1) as He.
    destruct (explain_code_in env m co w1) as [[lo | e2] w2]; cbn [snd] in He.
    + pose proof (chunk_code_world env m lo w2) as Hc.
      destruct (chunk_code_in env m lo w2) as [[ch | e3] w3]; cbn [snd] in Hc;
        cbn [snd]; rewrite Hc, He, Hg; eexists;
        (split; [rewrite !after_call_calls, <- !app_assoc; reflexivity
                | reflexivity]).
    + cbn [snd]. rewrite He, Hg. eexists.
      split; [rewrite !after_call_calls, <- !app_assoc; reflexivity
             | reflexivity].
  - cbn [snd]. rewrite Hg. exists [].
    split; reflexivity.
Qed.

(** ** The orchestrator, continued *)

(** X1. The orchestrator returns a response exactly when the three stages,
    run in order and each fed the output of the one before, all return;
    the response then nests the three outputs as they are, under the
    identifier drawn before stage 1, with the rounded elapsed time and the
    status [success]. *)
Theorem process_request_composes_the_stages env m request w response w' :
  process_request_in env m request w = (Ok response, w') <->
  exists code_output w1 line_output w2 chunk_output,
    generate_code_in env m request (started w) = (Ok code_output, w1) /\
    explain_code_in env m code_output w1 = (Ok line_output, w2) /\
    chunk_code_in env m line_output w2 = (Ok chunk_output, w') /\
    response = {| request_id := uuid4 env (issued w);
                  generated_code := code_output;
                  line_explanations := line_output;
                  chunked_code := chunk_output;
                  processing_time_seconds := Seconds.round2 (now w' - now w);
                  status := "success" |}.
Proof.
  rewrite process_request_cases. split.
  - destruct (generate_code_in env m request (started w)) as [[co | e] w1] eqn:Hg;
      [| discriminate].
    destruct (explain_code_in env m co w1) as [[lo | e] w2] eqn:He;
      [| discriminate].
    destruct (chunk_code_in env m lo w2) as [[ch | e] w3] eqn:Hc;
      [| discriminate].
    intros H. injection H as <- <-.
    exists co, w1, lo, w2, ch. repeat split; (reflexivity || assumption).
  - intros (co & w1 & lo & w2 & ch & -> & -> & -> & ->). reflexivity.
Qed.

Lemma process_request_composes_the_stages_witness :
  exists response w',
    process_request_in (Examples.all_good 5) Sync Examples.add_request
      Examples.w0 = (Ok response, w') /\
    request_id response = "id-0" /\ status response = "success".
Proof.
  eexists. eexists. split.
  - vm_compute. reflexivity.
  - match goal with
    | |- request_id ?r = _ /\ _ =>
        assert (H : process_request_in (Examples.all_good 5) Sync
                      Examples.add_request Examples.w0
                    = (Ok r, snd (process_request_in (Examples.all_good 5) Sync
                                    Examples.add_request Examples.w0)))
          by (vm_compute; reflexivity)
    end.
    apply process_request_composes_the_stages in H.
    destruct H as (co & w1 & lo & w2 & ch & _ & _ & _ & Hr).
    rewrite Hr. split; reflexivity.
Defined.

(** X3. In a successful run the three instructions sent to the models are,
    in this order: the one built from the request, the one built from the
    generation output that the response holds, and the one built from the
    explanation output that the response holds. Each stage is asked about
    what the caller gets, after the pinning of its metadata. *)
Theorem stages_are_fed_the_returned_outputs env m request w response w' :
  process_request_in env m request w = (Ok response, w') ->
  calls w' =
    (calls w ++
     [ Run code_generator (generator_build_prompt request);
       Run line_explainer (explainer_build_prompt (generated_code response));
       Run code_chunker (chunker_build_prompt (line_explanations response)) ])%list.
Proof.
  rewrite process_request_cases.
  pose proof (generate_code_world env m request (started w)) as Hg.
  destruct (generate_code_in env m request (started w)) as [[co | e] w1];
    [| discriminate].
  pose proof (explain_code_world env m co w1) as He.
  destruct (explain_code_in env m co w1) as [[lo | e] w2]; [| discriminate].
  pose proof (chunk_code_world env m lo w2) as Hc.
  destruct (chunk_code_in env m lo w2) as [[ch | e] w3]; [| discriminate].
  cbn [snd] in Hg, He, Hc. intros H. injection H as <- <-.
  cbn [generated_code line_explanations].
  rewrite Hc, He, Hg, !after_call_calls, <- !app_assoc. reflexivity.
Qed.

Lemma stages_are_fed_the_returned_outputs_witness :
  exists response w',
    process_request_in (Examples.all_good 5) Async Examples.add_request
      Examples.w0 = (Ok response, w') /\
    agents_of (calls w') = [code_generator; line_explainer; code_chunker].
Proof.
  eexists. eexists. split.
  - vm_compute. reflexivity.
  - match goal with
    | |- agents_of (calls ?w1) = _ =>
        assert (H : exists r,
                  process_request_in (Examples.all_good 5) Async
                    Examples.add_request Examples.w0 = (Ok r, w1))
          by (eexists; vm_compute; reflexivity)
    end.
    destruct H as [r H].
    rewrite (stages_are_fed_the_returned_outputs _ _ _ _ _ _ H). reflexivity.
Defined.

Lemma process_request_id env m request w response w' :
  process_request_in env m request w = (Ok response, w') ->
  request_id response = uuid4 env (issued w).
Proof.
  rewrite process_request_cases.
  destruct (generate_code_in env m request (started w)) as [[co | e] w1];
    [| discriminate].
  destruct (explain_code_in env m co w1) as [[lo | e] w2]; [| discriminate].
  destruct (chunk_code_in env m lo w2) as [[ch | e] w3]; [| discriminate].
  intros H. injection H as <- _. reflexivity.
Qed.

Lemma of_nat_inj i j : PyStr.of_nat i = PyStr.of_nat j -> i = j.
Proof.
  unfold PyStr.of_nat. intros H.
  apply (f_equal NilEmpty.uint_of_string) in H.
  rewrite !NilEmpty.usu in H. injection H as H.
  apply DecimalNat.Unsigned.to_uint_inj. exact H.
Qed.

(** X4. Every run of the orchestrator draws exactly one identifier, whether
    it succeeds or fails, and a successful run returns the one it drew. So
    two runs made one after the other return different identifiers as long
    as [uuid4] does not repeat itself. *)
Theorem request_ids_differ env m1 m2 request1 request2 w response1 w1 response2 w2 :
  (forall i j, uuid4 env i = uuid4 env j -> i = j) ->
  process_request_in env m1 request1 w = (Ok response1, w1) ->
  process_request_in env m2 request2 w1 = (Ok response2, w2) ->
  request_id response1 = uuid4 env (issued w) /\
  request_id response2 = uuid4 env (S (issued w)) /\
  request_id response1 <> request_id response2.
Proof.
  intros Hinj H1 H2.
  destruct (process_request_world env m1 request1 w) as (later & _ & Hissued).
  rewrite H1 in Hissued. cbn [snd] in Hissued.
  apply process_request_id in H1.
  apply process_request_id in H2.
  rewrite Hissued in H2. rewrite H1, H2.
  split; [reflexivity | split; [reflexivity |]].
  intros Heq. apply Hinj in Heq. lia.
Qed.

Lemma request_ids_differ_witness :
  exists response1 w1 response2 w2,
    process_request_in (Examples.all_good 5) Sync Examples.add_request
      Examples.w0 = (Ok response1, w1) /\
    process_request_in (Examples.all_good 5) Async Examples.add_request w1
      = (Ok response2, w2) /\
    request_id response1 <> request_id response2.
Proof.
  do 4 eexists.
  assert (Hinj : forall i j,
            uuid4 (Examples.all_good 5) i = uuid4 (Examples.all_good 5) j -> i = j).
  { intros i j H. cbn in H. injection H as H. apply of_nat_inj. exact H. }
  split; [vm_compute; reflexivity | split; [vm_compute; reflexivity |]].
  match goal with
  | |- request_id ?r1 <> request_id ?r2 =>
      assert (H1 : process_request_in (Examples.all_good 5) Sync
                     Examples.add_request Examples.w0
                   = (Ok r1, snd (process_request_in (Examples.all_good 5) Sync
                                    Examples.add_request Examples.w0)))
        by (vm_compute; reflexivity);
      assert (H2 : process_request_in (Examples.all_good 5) Async
                     Examples.add_request
                     (snd (process_request_in (Examples.all_good 5) Sync
                             Examples.add_request Examples.w0))
                   = (Ok r2,
                      snd (process_request_in (Examples.all_good 5) Async
                             Examples.add_request
                             (snd (process_request_in (Examples.all_good 5) Sync
                                     Examples.add_request Examples.w0)))))
        by (vm_compute; reflexivity)
  end.
  exact (proj2 (proj2 (request_ids_differ _ _ _ _ _ _ _ _ _ _ Hinj H1 H2))).
Defined.

Lemma generate_code_mode env m1 m2 request w :
  same_outcome (generate_code_in env m1 request w)
               (generate_code_in env m2 request w).
Proof.
  destruct (accepted (run_code_generator env (generator_build_prompt request)
                        (length (calls w)))) as [g |] eqn:Hacc.
  - rewrite (generate_code_accepted env m1 request w g Hacc),
            (generate_code_accepted env m2 request w g Hacc).
    split; reflexivity.
  - destruct (generate_code_rejected env m1 request w Hacc) as [u1 ->].
    destruct (generate_code_rejected env m2 request w Hacc) as [u2 ->].
    reflexivity.
Qed.

Lemma explain_code_mode env m1 m2 code_output w :
  same_outcome (explain_code_in env m1 code_output w)
               (explain_code_in env m2 code_output w).
Proof.
  destruct (accepted (run_line_explainer env (explainer_build_prompt code_output)
                        (length (calls w)))) as [l |] eqn:Hacc.
  - rewrite (explain_code_accepted env m1 code_output w l Hacc),
            (explain_code_accepted env m2 code_output w l Hacc).
    split; reflexivity.
  - destruct (explain_code_rejected env m1 code_output w Hacc) as [u1 ->].
    destruct (explain_code_rejected env m2 code_output w Hacc) as [u2 ->].
    reflexivity.
Qed.

Lemma chunk_code_mode env m1 m2 line_output w :
  same_outcome (chunk_code_in env m1 line_output w)
               (chunk_code_in env m2 line_output w).
Proof.
  destruct (accepted (run_code_chunker env (chunker_build_prompt line_output)
                        (length (calls w)))) as [c |] eqn:Hacc.
  - rewrite (chunk_code_accepted env m1 line_output w c Hacc),
            (chunk_code_accepted env m2 line_output w c Hacc).
    split; reflexivity.
  - destruct (chunk_code_rejected env m1 line_output w Hacc) as [u1 ->].
    destruct (chunk_code_rejected env m2 line_output w Hacc) as [u2 ->].
    reflexivity.
Qed.

Lemma process_request_mode env m1 m2 request w :
  same_outcome (process_request_in env m1 request w)
               (process_request_in env m2 request w).
Proof.
  rewrite !process_request_cases.
  pose proof (generate_code_mode env m1 m2 request (started w)) as Hg.
  destruct (generate_code_in env m1 request (started w)) as [[co1 | e1] w1];
    destruct (generate_code_in env m2 request (started w)) as [[co2 | e2] w1'];
    cbn [same_outcome] in Hg; try contradiction.
  - destruct Hg as [<- <-].
    pose proof (explain_code_mode env m1 m2 co1 w1) as He.
    destruct (explain_code_in env m1 co1 w1) as [[lo1 | e1] w2];
      destruct (explain_code_in env m2 co1 w1) as [[lo2 | e2] w2'];
      cbn [same_outcome] in He; try contradiction.
    + destruct He as [<- <-].
      pose proof (chunk_code_mode env m1 m2 lo1 w2) as Hc.
      destruct (chunk_code_in env m1 lo1 w2) as [[ch1 | e1] w3];
        destruct (chunk_code_in env m2 lo1 w2) as [[ch2 | e2] w3'];
        cbn [same_outcome] in Hc; try contradiction.
      * destruct Hc as [<- <-]. split; reflexivity.
      * exact Hc.
    + exact He.
  - exact Hg.
Qed.

(** X5. [process_request] and [aprocess_request] agree: from the same
    world and with the same models, one returns a response exactly when
    the other returns the same response, leaving the same world; and one
    raises exactly when the other does, after the same model calls. *)
Theorem sync_and_async_agree env request w :
  (forall response w',
     process_request env request w = (Ok response, w') <->
     aprocess_request env request w = (Ok response, w')) /\
  (forall w',
     (exists e, process_request env request w = (Raise e, w')) <->
     (exists e, aprocess_request env request w = (Raise e, w'))).
Proof.
  unfold process_request, aprocess_request.
  pose proof (process_request_mode env Sync Async request w) as H.
  destruct (process_request_in env Sync request w) as [[r1 | e1] w1];
    destruct (process_request_in env Async request w) as [[r2 | e2] w2];
    cbn [same_outcome] in H; try contradiction.
  - destruct H as [<- <-]. split.
    + intros response w'. tauto.
    + intros w'. split; intros [e He]; discriminate He.
  - subst w2. split.
    + intros response w'. split; intros He; discriminate He.
    + intros w'. split; intros [e He]; injection He as _ <-; eexists; reflexivity.
Qed.

(** X6. The orchestrator does not look at the prompt: for every request,
    a blank prompt included, its first act on the models is the call of the
    generator with the instruction built from the request. The refusal of
    blank prompts belongs to the endpoint alone, which then calls no
    model. *)
Theorem orchestrator_does_not_check_the_prompt env m w :
  (forall request,
     exists later,
       calls (snd (process_request_in env m request w)) =
         (calls w ++ Run code_generator (generator_build_prompt request)
                       :: later)%list) /\
  (forall body p,
     body_prompt body = Some p -> blank p = true ->
     calls (snd (post_api_v1_generate env body w)) = calls w).
Proof.
  split.
  - intros request.
    destruct (process_request_world env m request w) as (later & Hcalls & _).
    exists later. exact Hcalls.
  - intros body p Hp Hb.
    unfold post_api_v1_generate, parse_request. rewrite Hp.
    unfold generate_educational_code, try_except.
    cbn [prompt]. rewrite prompt_guard, Hb. reflexivity.
Qed.

Lemma orchestrator_does_not_check_the_prompt_witness :
  agents_of (calls (snd (process_request_in (Examples.all_good 5) Sync
                           MoreExamples.blank_request Examples.w0)))
    = [code_generator; line_explainer; code_chunker] /\
  calls (snd (post_api_v1_generate (Examples.all_good 5)
                {| body_prompt := Some "   "; body_language := None;
                   body_context := None |} Examples.w0)) = [].
Proof.
  split; [vm_compute; reflexivity |].
  apply (proj2 (orchestrator_does_not_check_the_prompt (Examples.all_good 5)
                  Sync Examples.w0)
           {| body_prompt := Some "   "; body_language := None;
              body_context := None |} "   ");
    reflexivity.
Defined.

(** ** The stages, continued *)

(** X8. Stage 1 returns the code text of the model as it is, and keeps the
    date of the model when the model gave one. *)
Theorem generate_code_keeps_code_and_date env m request w model_output :
  accepted (run_code_generator env (generator_build_prompt request)
              (length (calls w))) = Some model_output ->
  exists output w',
    generate_code_in env m request w = (Ok output, w') /\
    gen_code output = gen_code model_output /\
    (gen_date model_output <> "" -> gen_date output = gen_date model_output).
Proof.
  intros Hacc.
  rewrite (generate_code_accepted env m request w model_output Hacc).
  do 2 eexists. split; [reflexivity |]. cbn [gen_code gen_date].
  split; [reflexivity |].
  destruct (gen_date model_output); [contradiction | reflexivity].
Qed.

Lemma generate_code_keeps_code_and_date_witness :
  accepted (run_code_generator MoreExamples.dated
              (generator_build_prompt Examples.add_request)
              (length (calls Examples.w0))) = Some MoreExamples.generated_dated /\
  exists output w',
    generate_code MoreExamples.dated Examples.add_request Examples.w0
      = (Ok output, w') /\
    gen_code output = "x = 1" /\
    (gen_date MoreExamples.generated_dated <> "" ->
     gen_date output = "2025-10-31T12:00:00").
Proof.
  split; [reflexivity |].
  apply (generate_code_keeps_code_and_date MoreExamples.dated Sync
           Examples.add_request Examples.w0 MoreExamples.generated_dated).
  reflexivity.
Defined.

(** X9. A stage does not tell a failed model call from a reply that its
    schema rejects: in both cases it raises an exception whose text is the
    name of the stage, [ failed: ], and the text of the underlying error. *)
Theorem stage_failures_are_not_classified env m msg :
  (forall request w,
     let reply := run_code_generator env (generator_build_prompt request)
                    (length (calls w)) in
     outcome reply = RunRaises msg \/
     outcome reply = RunReturns (Other (Invalid msg)) ->
     fst (generate_code_in env m request w) =
       Raise (PyException (stage_kind m code_generator ++ " failed: " ++ msg))) /\
  (forall code_output w,
     let reply := run_line_explainer env (explainer_build_prompt code_output)
                    (length (calls w)) in
     outcome reply = RunRaises msg \/
     outcome reply = RunReturns (Other (Invalid msg)) ->
     fst (explain_code_in env m code_output w) =
       Raise (PyException (stage_kind m line_explainer ++ " failed: " ++ msg))) /\
  (forall line_output w,
     let reply := run_code_chunker env (chunker_build_prompt line_output)
                    (length (calls w)) in
     outcome reply = RunRaises msg \/
     outcome reply = RunReturns (Other (Invalid msg)) ->
     fst (chunk_code_in env m line_output w) =
       Raise (PyException (stage_kind m code_chunker ++ " failed: " ++ msg))).
Proof.
  split; [| split].
  - intros request w reply H.
    unfold generate_code_in, bind, try_except, datetime_now_isoformat, agent_run.
    fold reply. destruct H as [-> | ->]; destruct m; reflexivity.
  - intros code_output w reply H.
    unfold explain_code_in, bind, try_except, agent_run.
    fold reply. destruct H as [-> | ->]; destruct m; reflexivity.
  - intros line_output w reply H.
    unfold chunk_code_in, bind, try_except, agent_run.
    fold reply. destruct H as [-> | ->]; destruct m; reflexivity.
Qed.

Lemma stage_failures_are_not_classified_witness :
  fst (explain_code (Examples.explanation_fails 5) Examples.generated Examples.w0)
    = Raise (PyException "Line explanation failed: boom") /\
  fst (aexplain_code MoreExamples.validation_fails Examples.generated Examples.w0)
    = Raise (PyException
        "Async line explanation failed: 1 validation error for LineExplanationOutput").
Proof.
  split.
  - apply (proj1 (proj2 (stage_failures_are_not_classified
             (Examples.explanation_fails 5) Sync "boom"))
             Examples.generated Examples.w0).
    left. reflexivity.
  - apply (proj1 (proj2 (stage_failures_are_not_classified
             MoreExamples.validation_fails Async
             "1 validation error for LineExplanationOutput"))
             Examples.generated Examples.w0).
    right. reflexivity.
Defined.

(** X10. Whatever its model answers (an accepted reply, a rejected one or
    an exception) a stage calls its model exactly once, with the
    instruction built from its input; it draws no identifier and the clock
    moves by the latency of that call only. *)
Theorem each_stage_calls_its_model_once env m w :
  (forall request,
     let w' := snd (generate_code_in env m request w) in
     calls w' = (calls w ++ [Run code_generator (generator_build_prompt request)])%list /\
     issued w' = issued w /\
     now w' = now w + latency (run_code_generator env
                                (generator_build_prompt request)
                                (length (calls w)))) /\
  (forall code_output,
     let w' := snd (explain_code_in env m code_output w) in
     calls w' = (calls w ++ [Run line_explainer
                               (explainer_build_prompt code_output)])%list /\
     issued w' = issued w /\
     now w' = now w + latency (run_line_explainer env
                                (explainer_build_prompt code_output)
                                (length (calls w)))) /\
  (forall line_output,
     let w' := snd (chunk_code_in env m line_output w) in
     calls w' = (calls w ++ [Run code_chunker
                               (chunker_build_prompt line_output)])%list /\
     issued w' = issued w /\
     now w' = now w + latency (run_code_chunker env
                                (chunker_build_prompt line_output)
                                (length (calls w)))).
Proof.
  split; [| split].
  - intros request w'. subst w'. rewrite generate_code_world.
    repeat split; reflexivity.
  - intros code_output w'. subst w'. rewrite explain_code_world.
    repeat split; reflexivity.
  - intros line_output w'. subst w'. rewrite chunk_code_world.
    repeat split; reflexivity.
Qed.

(** ** The instructions *)

Lemma or_default_shown explanation :
  PyStr.or_default (Some (PyStr.or_default explanation "blank line")) "blank line"
  = PyStr.or_default explanation "blank line".
Proof. destruct explanation as [[| c rest] |]; reflexivity. Qed.

(** X11. The instruction of the chunking stage shows a line without
    explanation, and a line whose explanation is the empty text, as a line
    explained by [blank line], whatever its code: the instruction is the
    same as for the output in which these explanations are spelled out. *)
Theorem chunker_prompt_shows_missing_explanations_as_blank line_output :
  chunker_build_prompt (with_shown_explanations line_output)
  = chunker_build_prompt line_output.
Proof.
  unfold chunker_build_prompt, with_shown_explanations.
  cbn [lines_language lines_code lines_explanation].
  rewrite map_map. do 3 f_equal.
  apply map_ext. intros l. unfold shown_explanation.
  cbn [line line_code line_explanation]. rewrite or_default_shown. reflexivity.
Qed.

(** X12. The instruction of the generation stage has the section
    [Additional context: ...] exactly for a context that is given and not
    empty; an empty context gives the instruction of a request without
    context. *)
Theorem generator_prompt_context p l :
  generator_build_prompt {| prompt := p; language := l; context := Some "" |}
  = generator_build_prompt {| prompt := p; language := l; context := None |} /\
  (forall c : string,
     c <> "" ->
     exists head tail,
       generator_build_prompt {| prompt := p; language := l; context := Some c |}
       = head ++ p ++ String PyStr.newline (String PyStr.newline "")
           ++ "Additional context: " ++ c ++ String PyStr.newline tail /\
       generator_build_prompt {| prompt := p; language := l; context := None |}
       = head ++ p ++ String PyStr.newline tail).
Proof.
  split; [reflexivity |].
  intros c Hc. destruct c as [| a c]; [contradiction |].
  exists ("Generate " ++ l ++ " code for the following request:"
          ++ String PyStr.newline (String PyStr.newline "")).
  eexists.
  unfold generator_build_prompt, PyStr.join_lines.
  cbn [prompt language context app String.concat].
  rewrite !append_assoc. cbn [append].
  split; reflexivity.
Qed.

Lemma generator_prompt_context_witness :
  "Use recursion" <> "" /\
  exists head tail,
    generator_build_prompt
      {| prompt := "Create a function to calculate factorial";
         language := "python"; context := Some "Use recursion" |}
    = head ++ "Create a function to calculate factorial"
        ++ String PyStr.newline (String PyStr.newline "")
        ++ "Additional context: " ++ "Use recursion" ++ String PyStr.newline tail /\
    generator_build_prompt
      {| prompt := "Create a function to calculate factorial";
         language := "python"; context := None |}
    = head ++ "Create a function to calculate factorial"
        ++ String PyStr.newline tail.
Proof.
  split; [discriminate |].
  apply (proj2 (generator_prompt_context
                  "Create a function to calculate factorial" "python")
           "Use recursion").
  discriminate.
Defined.

(** ** The endpoint, continued *)

Lemma handler_on_orchestrator_success env request w response w' :
  blank (prompt request) = false ->
  aprocess_request env request w = (Ok response, w') ->
  generate_educational_code env request w = (Ok response, w').
Proof.
  intros Hb Hrun. unfold generate_educational_code, try_except.
  rewrite prompt_guard, Hb. unfold bind. rewrite Hrun. reflexivity.
Qed.

(** The route as a case analysis on the body and on the orchestrator. *)
Lemma post_api_v1_generate_cases env body w :
  post_api_v1_generate env body w =
    match parse_request body with
    | None => ({| http_status := 422; http_body := JsonValidationError |}, w)
    | Some request =>
        if blank (prompt request)
        then ({| http_status := 400;
                 http_body := JsonDetail "Prompt cannot be empty" |}, w)
        else
          match aprocess_request env request w with
          | (Ok response, w') =>
              ({| http_status := 200; http_body := JsonResponse response |}, w')
          | (Raise e, w') =>
              ({| http_status := 500;
                  http_body := JsonDetail ("Code generation failed: " ++ str e) |},
               w')
          end
    end.
Proof.
  unfold post_api_v1_generate.
  destruct (parse_request body) as [request |]; [| reflexivity].
  destruct (blank (prompt request)) eqn:Hb.
  - unfold generate_educational_code, try_except.
    rewrite prompt_guard, Hb. reflexivity.
  - destruct (aprocess_request env request w) as [[response | e] w'] eqn:Hrun.
    + rewrite (handler_on_orchestrator_success env request w response w' Hb Hrun).
      reflexivity.
    + rewrite (handler_on_orchestrator_failure env request w e w' Hb Hrun).
      reflexivity.
Qed.

(** X13. For a body with a prompt that is not blank, the endpoint answers
    200 exactly when the orchestrator returns, and the body of the answer
    is then the orchestrator's response, unchanged; the prompt reaches the
    generator as it was sent, without trimming. *)
Theorem generate_endpoint_success env body request w response w' :
  parse_request body = Some request ->
  PyStr.strip (prompt request) <> "" ->
  aprocess_request env request w = (Ok response, w') ->
  post_api_v1_generate env body w =
    ({| http_status := 200; http_body := JsonResponse response |}, w') /\
  body_prompt body = Some (prompt request) /\
  exists later,
    calls w' = (calls w ++ Run code_generator (generator_build_prompt request)
                             :: later)%list.
Proof.
  intros Hparse Hs Hrun.
  assert (Hb : blank (prompt request) = false).
  { destruct (blank (prompt request)) eqn:Hb; [| reflexivity].
    apply strip_empty_iff_blank in Hb. contradiction. }
  split; [| split].
  - rewrite post_api_v1_generate_cases, Hparse, Hb, Hrun. reflexivity.
  - unfold parse_request in Hparse.
    destruct (body_prompt body) as [p |]; [| discriminate].
    injection Hparse as <-. reflexivity.
  - destruct (process_request_world env Async request w) as (later & Hcalls & _).
    unfold aprocess_request in Hrun. rewrite Hrun in Hcalls.
    exists later. exact Hcalls.
Qed.

Lemma generate_endpoint_success_witness :
  parse_request MoreExamples.body_without_language
    = Some {| prompt := "  Create a function to add two numbers ";
              language := "python"; context := Some "" |} /\
  PyStr.strip "  Create a function to add two numbers " <> "" /\
  http_status (fst (post_api_v1_generate (Examples.all_good 5)
                      MoreExamples.body_without_language Examples.w0)) = 200.
Proof.
  split; [reflexivity | split; [vm_compute; discriminate |]].
  assert (Hrun : aprocess_request (Examples.all_good 5)
                   {| prompt := "  Create a function to add two numbers ";
                      language := "python"; context := Some "" |} Examples.w0
                 = (fst (aprocess_request (Examples.all_good 5)
                           {| prompt := "  Create a function to add two numbers ";
                              language := "python"; context := Some "" |}
                           Examples.w0),
                    snd (aprocess_request (Examples.all_good 5)
                           {| prompt := "  Create a function to add two numbers ";
                              language := "python"; context := Some "" |}
                           Examples.w0)))
    by (vm_compute; reflexivity).
  assert (Hok : exists r,
            fst (aprocess_request (Examples.all_good 5)
                   {| prompt := "  Create a function to add two numbers ";
                      language := "python"; context := Some "" |} Examples.w0)
            = Ok r)
    by (eexists; vm_compute; reflexivity).
  destruct Hok as [r Hok]. rewrite Hok in Hrun.
  destruct (generate_endpoint_success (Examples.all_good 5)
              MoreExamples.body_without_language _ Examples.w0 r _
              eq_refl ltac:(vm_compute; discriminate) Hrun) as [Hpost _].
  rewrite Hpost. reflexivity.
Defined.

(** X14. The status of the answer of [POST /api/v1/generate] tells the
    cases apart. It is 422 exactly when the body is rejected by the schema:
    it is not a JSON object, or its prompt is absent, null or not a string,
    or its language is null or not a string, or its context is neither
    absent, null nor a string. It is 400 exactly when the body passes the
    schema and its prompt is blank. It is 200 exactly when the body of the
    answer is a response of the orchestrator. Otherwise it is 500. *)
Theorem generate_endpoint_statuses env raw w :
  let answer := fst (post_api_v1_generate_raw env raw w) in
  (http_status answer = 422 <->
   match raw with
   | NotAnObject => True
   | Object p l c =>
       (forall s, p <> Text s) \/ l = Null \/ l = NotText \/ c = NotText
   end) /\
  (http_status answer = 400 <->
   exists p l c,
     raw = Object (Text p) l c /\
     l <> Null /\ l <> NotText /\ c <> NotText /\ PyStr.strip p = "") /\
  (http_status answer = 200 <->
   exists response, http_body answer = JsonResponse response) /\
  (http_status answer = 200 \/ http_status answer = 400 \/
   http_status answer = 422 \/ http_status answer = 500).
Proof.
  cbn zeta. unfold post_api_v1_generate_raw.
  assert (Hdec :
    (exists p l c body,
       raw = Object (Text p) l c /\
       l <> Null /\ l <> NotText /\ c <> NotText /\
       validate_body raw = Some body /\ body_prompt body = Some p) \/
    (validate_body raw = None /\
     match raw with
     | NotAnObject => True
     | Object p l c =>
         (forall s, p <> Text s) \/ l = Null \/ l = NotText \/ c = NotText
     end)).
  { destruct raw as [| [| | p |] l c].
    - right. split; [reflexivity | exact I].
    - right. split; [reflexivity | left; intros s H; discriminate H].
    - right. split; [reflexivity | left; intros s H; discriminate H].
    - destruct l, c;
        first
          [ left; do 4 eexists;
            repeat split; try discriminate; reflexivity
          | right; split; [reflexivity |];
            first [ right; left; reflexivity
                  | right; right; left; reflexivity
                  | right; right; right; reflexivity ] ].
    - right. split; [reflexivity | left; intros s H; discriminate H]. }
  destruct Hdec as [(p & l & c & body & -> & Hl1 & Hl2 & Hc & Hv & Hbody)
                   | [Hv Hinv]].
  - rewrite Hv, post_api_v1_generate_cases. unfold parse_request.
    rewrite Hbody. cbn [prompt].
    assert (Hvalid : ~ ((forall s, Text p <> Text s) \/
                        l = Null \/ l = NotText \/ c = NotText)).
    { intros [H | [H | [H | H]]]; try contradiction.
      apply (H p). reflexivity. }
    pose proof (strip_empty_iff_blank p) as Hstrip.
    destruct (blank p) eqn:Hb.
    + cbn [fst http_status http_body]. split; [| split; [| split]].
      * split; [discriminate | intros H; contradiction].
      * split; [| reflexivity].
        intros _. exists p, l, c. repeat split; try assumption.
        apply Hstrip. reflexivity.
      * split; [discriminate | intros [r H]; discriminate H].
      * right. left. reflexivity.
    + assert (Hne : PyStr.strip p <> "")
        by (intros H; apply Hstrip in H; discriminate H).
      match goal with
      | |- context [aprocess_request env ?r w] =>
          destruct (aprocess_request env r w) as [[response | e] w']
      end; cbn [fst http_status http_body]; (split; [| split; [| split]]).
      * split; [discriminate | intros H; contradiction].
      * split; [discriminate |].
        intros (q & l' & c' & Hq & _ & _ & _ & Hs).
        injection Hq as <- _ _. contradiction.
      * split; [intros _; exists response; reflexivity | reflexivity].
      * left. reflexivity.
      * split; [discriminate | intros H; contradiction].
      * split; [discriminate |].
        intros (q & l' & c' & Hq & _ & _ & _ & Hs).
        injection Hq as <- _ _. contradiction.
      * split; [discriminate | intros [r H]; discriminate H].
      * right. right. right. reflexivity.
  - rewrite Hv. cbn [fst http_status http_body]. split; [| split; [| split]].
    + split; [intros _; exact Hinv | reflexivity].
    + split; [discriminate |].
      intros (p & l & c & -> & Hl1 & Hl2 & Hc & _). exfalso.
      destruct Hinv as [H | [H | [H | H]]]; try contradiction.
      apply (H p). reflexivity.
    + split; [discriminate | intros [r H]; discriminate H].
    + right. right. left. reflexivity.
Qed.

Lemma generate_endpoint_statuses_witness :
  http_status (fst (post_api_v1_generate_raw (Examples.all_good 5)
                      (Object Null (Text "python") Absent) Examples.w0)) = 422.
Proof.
  apply (proj1 (generate_endpoint_statuses (Examples.all_good 5)
                  (Object Null (Text "python") Absent) Examples.w0)).
  left. intros s H. discriminate H.
Defined.

Lemma process_request_languages env m request w response w' :
  process_request_in env m request w = (Ok response, w') ->
  gen_language (generated_code response) = language request /\
  lines_language (line_explanations response) = language request /\
  chunks_language (chunked_code response) = language request.
Proof.
  rewrite process_request_cases.
  destruct (generate_code_in env m request (started w)) as [[co | e] w1] eqn:Hg;
    [| discriminate].
  destruct (explain_code_in env m co w1) as [[lo | e] w2] eqn:He; [| discriminate].
  destruct (chunk_code_in env m lo w2) as [[ch | e] w3] eqn:Hc; [| discriminate].
  intros H. injection H as <- _.
  apply generate_code_Ok in Hg. destruct Hg as (g & _ & -> & _).
  apply explain_code_Ok in He. destruct He as (l & _ & -> & _).
  apply chunk_code_Ok in Hc. destruct Hc as (c & _ & -> & _).
  cbn. repeat split; reflexivity.
Qed.

(** X15. When the body of the request leaves [language] out, the three
    outputs of a 200 answer are in [python], whatever language the models
    declare. *)
Theorem generate_endpoint_default_language env body w response :
  body_language body = None ->
  http_body (fst (post_api_v1_generate env body w)) = JsonResponse response ->
  gen_language (generated_code response) = "python" /\
  lines_language (line_explanations response) = "python" /\
  chunks_language (chunked_code response) = "python".
Proof.
  intros Hlang. rewrite post_api_v1_generate_cases. unfold parse_request.
  rewrite Hlang.
  destruct (body_prompt body) as [p |]; [| discriminate]. cbn [prompt].
  destruct (blank p); [discriminate |].
  match goal with
  | |- context [aprocess_request env ?r w] =>
      destruct (aprocess_request env r w) as [[r0 | e] w'] eqn:Hrun
  end; [| discriminate].
  cbn [fst http_body]. intros H. injection H as <-.
  apply process_request_languages in Hrun. exact Hrun.
Qed.

Lemma generate_endpoint_default_language_witness :
  exists response,
    body_language MoreExamples.body_without_language = None /\
    http_body (fst (post_api_v1_generate (Examples.all_good 5)
                      MoreExamples.body_without_language Examples.w0))
      = JsonResponse response /\
    gen_language (Examples.generated) = "javascript" /\
    gen_language (generated_code response) = "python".
Proof.
  eexists. split; [reflexivity |].
  split; [vm_compute; reflexivity |].
  split; [reflexivity |].
  eapply (generate_endpoint_default_language (Examples.all_good 5)
            MoreExamples.body_without_language Examples.w0).
  - reflexivity.
  - vm_compute. reflexivity.
Defined.

(** ** Start-up and the health endpoints *)

(** X16. The module does not load without the credential: start-up raises
    [EnvironmentError] exactly when [ANTHROPIC_API_KEY] is unset or set to
    the empty text; otherwise the global orchestrator is built with the
    default model identifier, which its three agents share. *)
Theorem startup_requires_the_key environ :
  ((exists msg, startup environ = EnvironmentError msg) <->
   (environ "ANTHROPIC_API_KEY" = None \/ environ "ANTHROPIC_API_KEY" = Some "")) /\
  (forall orchestrator,
     startup environ = Started orchestrator ->
     orchestrator_model_id orchestrator = "claude-sonnet-4-20250514" /\
     agent_model (generator_agent (orchestrator_code_generator orchestrator))
       = orchestrator_model_id orchestrator /\
     agent_model (explainer_agent (orchestrator_line_explainer orchestrator))
       = orchestrator_model_id orchestrator /\
     agent_model (chunker_agent (orchestrator_code_chunker orchestrator))
       = orchestrator_model_id orchestrator).
Proof.
  unfold startup, getenv_bool. split.
  - destruct (environ "ANTHROPIC_API_KEY") as [[| c rest] |]; cbn.
    + split; [auto | intros _; eexists; reflexivity].
    + split; [intros [msg H]; discriminate H | intros [H | H]; discriminate H].
    + split; [auto | intros _; eexists; reflexivity].
  - intros orchestrator.
    destruct (environ "ANTHROPIC_API_KEY") as [[| c rest] |]; cbn;
      try discriminate.
    intros H. injection H as <-. repeat split; reflexivity.
Qed.

Lemma startup_requires_the_key_witness :
  (exists msg, startup MoreExamples.with_empty_key = EnvironmentError msg) /\
  orchestrator_model_id (OrchestratorAgent_init default_model_id)
    = "claude-sonnet-4-20250514".
Proof.
  split.
  - apply (proj1 (startup_requires_the_key MoreExamples.with_empty_key)).
    right. reflexivity.
  - apply (proj2 (startup_requires_the_key MoreExamples.with_key)
             (OrchestratorAgent_init default_model_id)).
    reflexivity.
Defined.

(** X17. Once the module has loaded, and as long as the environment is the
    one it loaded with, [GET /health] reports the credential as configured
    and [GET /health/ready] reports ready with both checks passed. In
    general [ready] is the credential check alone: the orchestrator check
    always passes. *)
Theorem health_after_startup env environ orchestrator w :
  (startup environ = Started orchestrator ->
   jget "api_key_configured" (health_check env environ orchestrator w)
     = Some (JBool true) /\
   jget "ready" (readiness_check env environ w) = Some (JBool true) /\
   jget "checks" (readiness_check env environ w)
     = Some (JObj [("api_key", JBool true); ("orchestrator", JBool true)])) /\
  jget "ready" (readiness_check env environ w)
    = jget "api_key_configured" (health_check env environ orchestrator w) /\
  jpath ["checks"; "orchestrator"] (readiness_check env environ w)
    = Some (JBool true).
Proof.
  split; [| split; [| reflexivity]].
  - unfold startup, health_check, readiness_check.
    destruct (getenv_bool environ "ANTHROPIC_API_KEY"); [| discriminate].
    intros _. repeat split; reflexivity.
  - unfold health_check, readiness_check. cbn.
    rewrite andb_true_r. reflexivity.
Qed.

Lemma health_after_startup_witness :
  startup MoreExamples.with_key
    = Started (OrchestratorAgent_init default_model_id) /\
  jget "ready" (readiness_check (Examples.all_good 5) MoreExamples.with_key
                  Examples.w0) = Some (JBool true).
Proof.
  split; [reflexivity |].
  apply (proj1 (health_after_startup (Examples.all_good 5) MoreExamples.with_key
                  (OrchestratorAgent_init default_model_id) Examples.w0)).
  reflexivity.
Defined.

(** X18. For an orchestrator built by its constructor, [get_agent_info]
    describes the agents that exist: it counts three, and the identifier
    and the model it gives for each are those the agent object was built
    with. *)
Theorem get_agent_info_matches_the_agents model_id :
  let self := OrchestratorAgent_init model_id in
  let info := get_agent_info self in
  jpath ["orchestrator"; "agents"] info
    = Some (JInt (Z.of_nat (length
        [ generator_agent (orchestrator_code_generator self);
          explainer_agent (orchestrator_line_explainer self);
          chunker_agent (orchestrator_code_chunker self) ]))) /\
  Forall
    (fun entry =>
       jpath ["agents"; fst entry; "id"] info
         = Some (JStr (agent_id (snd entry))) /\
       jpath ["agents"; fst entry; "model"] info
         = Some (JStr (agent_model (snd entry))))
    [ ("code_generator", generator_agent (orchestrator_code_generator self));
      ("line_explainer", explainer_agent (orchestrator_line_explainer self));
      ("code_chunker", chunker_agent (orchestrator_code_chunker self)) ].
Proof.
  cbn zeta. split; [reflexivity |].
  repeat constructor.
Qed.

(** ** [validate_line_numbers], continued *)

Lemma validate_line_numbers_app a b :
  validate_line_numbers (a ++ b)
  = validate_line_numbers a && validate_line_numbers b.
Proof. unfold validate_line_numbers. apply forallb_app. Qed.

(** X19. [validate_line_numbers] does not see the order of the chunks: a
    list passes exactly when any rearrangement of it passes; and a list
    made of two parts passes exactly when both parts pass. *)
Theorem validate_line_numbers_ignores_order :
  (forall a b, Permutation a b ->
               validate_line_numbers a = validate_line_numbers b) /\
  (forall a b, validate_line_numbers (a ++ b)
               = validate_line_numbers a && validate_line_numbers b).
Proof.
  split; [| exact validate_line_numbers_app].
  unfold validate_line_numbers. intros a b H.
  induction H as [| x l l' _ IH | x y l | l l' l'' _ IH1 _ IH2].
  - reflexivity.
  - cbn [forallb]. rewrite IH. reflexivity.
  - cbn [forallb].
    destruct (first_line x <=? last_line x), (first_line y <=? last_line y);
      reflexivity.
  - rewrite IH1. exact IH2.
Qed.

Lemma validate_line_numbers_ignores_order_witness :
  Permutation Examples.chunks_unordered (rev Examples.chunks_unordered) /\
  validate_line_numbers Examples.chunks_unordered
    = validate_line_numbers (rev Examples.chunks_unordered).
Proof.
  split; [apply Permutation_rev |].
  apply (proj1 validate_line_numbers_ignores_order). apply Permutation_rev.
Defined.

(** ** The guard of the handler and the error text *)

(** X20. The guard of the handler,
    [not request.prompt or len(request.prompt.strip()) == 0], refuses
    exactly the prompts all of whose characters are white space, the empty
    prompt among them; its first test is implied by its second. *)
Theorem prompt_guard_refuses_blank_prompts p :
  (negb (PyStr.truthy p) || (String.length (PyStr.strip p) =? 0)%nat = true <->
   blank p = true) /\
  (negb (PyStr.truthy p) = true ->
   (String.length (PyStr.strip p) =? 0)%nat = true) /\
  (forall c rest, p = String c rest -> PyStr.is_space c = false ->
   negb (PyStr.truthy p) || (String.length (PyStr.strip p) =? 0)%nat = false).
Proof.
  split; [| split].
  - rewrite prompt_guard. tauto.
  - destruct p; [reflexivity | discriminate].
  - intros c rest -> Hc. rewrite prompt_guard. cbn [blank]. rewrite Hc.
    reflexivity.
Qed.

Lemma prompt_guard_refuses_blank_prompts_witness :
  negb (PyStr.truthy "x  ")
    || (String.length (PyStr.strip "x  ") =? 0)%nat = false.
Proof.
  apply (proj2 (proj2 (prompt_guard_refuses_blank_prompts "x  ")) "x"%char "  ");
    reflexivity.
Defined.

(** X21. The error text of the generation model reaches the client as it
    is: when the first model call raises, or returns what the schema
    rejects, with text [msg], the endpoint answers 500 with the detail
    [Code generation failed: Async orchestration failed after <t>s: Async
    code generation failed: msg], where [<t>] is the clock change of that call,
    and no other model has been called. *)
Theorem generator_error_reaches_the_client env body request w msg :
  parse_request body = Some request ->
  PyStr.strip (prompt request) <> "" ->
  outcome (run_code_generator env (generator_build_prompt request)
             (length (calls w))) = RunRaises msg \/
  outcome (run_code_generator env (generator_build_prompt request)
             (length (calls w))) = RunReturns (Other (Invalid msg)) ->
  fst (post_api_v1_generate env body w) =
    {| http_status := 500;
       http_body :=
         JsonDetail
           ("Code generation failed: Async orchestration failed after "
            ++ Seconds.format_2f
                 (latency (run_code_generator env
                             (generator_build_prompt request)
                             (length (calls w))))
            ++ "s: Async code generation failed: " ++ msg) |} /\
  calls (snd (post_api_v1_generate env body w)) =
    (calls w ++ [Run code_generator (generator_build_prompt request)])%list.
Proof.
  intros Hparse Hs Hout.
  assert (Hb : blank (prompt request) = false).
  { destruct (blank (prompt request)) eqn:Hb; [| reflexivity].
    apply strip_empty_iff_blank in Hb. contradiction. }
  rewrite post_api_v1_generate_cases, Hparse, Hb.
  unfold aprocess_request. rewrite process_request_cases.
  assert (Hgen : generate_code_in env Async request (started w) =
            (Raise (PyException ("Async code generation failed: " ++ msg)),
             after_call (started w)
               (Run code_generator (generator_build_prompt request))
               (latency (run_code_generator env (generator_build_prompt request)
                           (length (calls w)))))).
  { unfold generate_code_in, bind, try_except, datetime_now_isoformat, agent_run.
    change (calls (started w)) with (calls w).
    destruct Hout as [-> | ->]; reflexivity. }
  rewrite Hgen. cbn [fst snd]. split; [| reflexivity].
  unfold orchestration_failed, after_call, started. cbn [now str].
  replace (now w + latency (run_code_generator env
                              (generator_build_prompt request)
                              (length (calls w))) - now w)
    with (latency (run_code_generator env
                     (generator_build_prompt request)
                     (length (calls w)))) by lia.
  reflexivity.
Qed.

Lemma generator_error_reaches_the_client_witness :
  parse_request Examples.add_body = Some Examples.add_request /\
  PyStr.strip (prompt Examples.add_request) <> "" /\
  fst (post_api_v1_generate (Examples.generation_fails 1234567)
         Examples.add_body Examples.w0) =
    {| http_status := 500;
       http_body := JsonDetail
         "Code generation failed: Async orchestration failed after 0.29s: Async code generation failed: boom" |}.
Proof.
  split; [reflexivity | split; [vm_compute; discriminate |]].
  destruct (generator_error_reaches_the_client
              (Examples.generation_fails 1234567) Examples.add_body
              Examples.add_request Examples.w0 "boom" eq_refl
              ltac:(vm_compute; discriminate) (or_introl eq_refl)) as [H _].
  rewrite H. vm_compute. reflexivity.
Defined.
